(** * OpenTsdbRawEncoder: the line formatter and the dedupe buffer

  A shallow embedding of [externals/opentsdb/opentsdb_raw_encoder.go].
  Go strings are byte sequences and are modelled by [string] (a list of
  8-bit [ascii] characters).  The functions of Go's [strings] package that
  work rune by rune ([TrimLeft], [ToLower], [SplitN] with an empty
  separator) are modelled on single-byte characters, the ASCII alphabet of
  the OpenTSDB line protocol. *)

From Stdlib Require Import ZArith Ascii String List Lia Bool.
From stdpp Require Import base decidable option list strings pretty gmap fin_maps.

Local Open Scope string_scope.
Local Open Scope Z_scope.

#[local] Arguments String.append !s1 s2 : simpl nomatch.

(** ** Go's [strings] package *)

Module GoStrings.

(** [strings.HasPrefix(s, prefix)]. *)
Definition HasPrefix (s prefix : string) : bool := String.prefix prefix s.

(** [s[n:]] for [n <= len(s)]. *)
Fixpoint slice_from (n : nat) (s : string) : string :=
  match n, s with
  | O, _ => s
  | S n', String _ s' => slice_from n' s'
  | S _, EmptyString => EmptyString
  end.

(** One round of the loop of [genSplit]: [m := Index(s, sep)], then the
    piece [s[:m]] and the remainder [s[m+len(sep):]]; [None] when
    [Index] returns -1. *)
Fixpoint Cut (s sep : string) : option (string * string) :=
  if String.prefix sep s then Some (EmptyString, slice_from (String.length sep) s)
  else match s with
       | EmptyString => None
       | String c s' =>
           match Cut s' sep with
           | Some (before, after) => Some (String c before, after)
           | None => None
           end
       end.

(** The loop of [genSplit] for a non-empty separator: at most [n] cuts,
    stopping early when the separator no longer occurs. *)
Fixpoint genSplit_loop (sep : string) (n : nat) (s : string) : list string :=
  match n with
  | O => [s]
  | S n' =>
      match Cut s sep with
      | None => [s]
      | Some (piece, rest) => piece :: genSplit_loop sep n' rest
      end
  end.

(** [explode(s, n)]: the first [n-1] characters one by one, then the rest. *)
Fixpoint explode_loop (k : nat) (s : string) : list string :=
  match k, s with
  | S k', String c s' => String c EmptyString :: explode_loop k' s'
  | _, _ => [s]
  end.

Definition explode (s : string) (n : nat) : list string :=
  match Nat.min n (String.length s) with
  | O => []
  | S k => explode_loop k s
  end.

(** [strings.SplitN(s, sep, n)] for [n >= 0]: [genSplit] clips [n] to
    [len(s)+1] and cuts [n-1] times. *)
Definition SplitN (s sep : string) (n : nat) : list string :=
  match n with
  | O => []
  | S k =>
      if bool_decide (sep = EmptyString) then explode s n
      else genSplit_loop sep (Nat.min k (String.length s)) s
  end.

(** [strings.Split(s, sep)] is [genSplit] with [n = Count(s, sep) + 1];
    the loop ends when the separator no longer occurs, which happens
    after at most [len(s)] cuts of a non-empty separator. *)
Definition Split (s sep : string) : list string :=
  if bool_decide (sep = EmptyString) then explode s (String.length s)
  else genSplit_loop sep (String.length s) s.

(** Membership of a character in a cutset. *)
Fixpoint in_cutset (cutset : string) (c : ascii) : bool :=
  match cutset with
  | EmptyString => false
  | String d cutset' => if Ascii.eqb c d then true else in_cutset cutset' c
  end.

(** [strings.TrimLeft(s, cutset)]: drop leading characters while they
    belong to [cutset]. *)
Fixpoint TrimLeft (s cutset : string) : string :=
  match s with
  | EmptyString => EmptyString
  | String c s' => if in_cutset cutset c then TrimLeft s' cutset else s
  end.


Definition lower_byte (c : ascii) : ascii :=
  let n := nat_of_ascii c in
  if (65 <=? n)%nat && (n <=? 90)%nat then ascii_of_nat (n + 32) else c.

(** [strings.ToLower(s)].  The encoder only compares the result with
    ["host"]; no character outside ASCII has one of [h], [o], [s], [t] as
    its lower case, so leaving the other bytes alone decides that
    comparison as Go does. *)
Fixpoint ToLower (s : string) : string :=
  match s with
  | EmptyString => EmptyString
  | String c s' => String (lower_byte c) (ToLower s')
  end.

End GoStrings.

Import GoStrings.

(** ** Machine integers and interface values *)

(** Two's-complement wrap-around of [int64] arithmetic. *)
Definition wrap64 (z : Z) : Z := (z + 2 ^ 63) mod 2 ^ 64 - 2 ^ 63.

Definition sub64 (a b : Z) : Z := wrap64 (a - b).

Definition mul64 (a b : Z) : Z := wrap64 (a * b).

(** Modelled from the spec: the value of a message field, the variant
    {text, integer, float} of the spec's data model (the message type of the
    host pipeline is not part of this repository).  A [float64] is kept as
    its IEEE-754 bit pattern, a number in [0, 2^64). *)
Inductive FieldValue : Type :=
| VString (s : string)
| VInt (n : Z)
| VDouble (bits : Z).

Definition float64_isNaN (bits : Z) : bool :=
  (Z.land (Z.shiftr bits 52) 2047 =? 2047) && negb (Z.land bits (2 ^ 52 - 1) =? 0).

Definition float64_isZero (bits : Z) : bool := Z.land bits (2 ^ 63 - 1) =? 0.

(** Go's [==] on two [float64]: IEEE equality (NaN differs from everything,
    the two zeros are equal). *)
Definition float64_eq (a b : Z) : bool :=
  negb (float64_isNaN a) && negb (float64_isNaN b)
  && ((a =? b) || (float64_isZero a && float64_isZero b)).

(** Go's [==] on two [interface{}] values: same dynamic type and equal
    values. *)
Definition iface_eq (a b : FieldValue) : bool :=
  match a, b with
  | VString x, VString y => String.eqb x y
  | VInt x, VInt y => x =? y
  | VDouble x, VDouble y => float64_eq x y
  | _, _ => false
  end.

(** Modelled from the spec: a message field and a message, "a uniform
    ordered sequence of (name, value) pairs" with a timestamp in
    nanoseconds since the epoch. *)
Record Field : Type := mkField { GetName : string; GetValue : FieldValue }.

Record Message : Type := mkMessage { GetFields : list Field; GetTimestamp : Z }.

(** Modelled from the spec: get-named-field, "returns present/absent + typed
    value"; the first field of that name is the one returned. *)
Fixpoint lookup_field (fields : list Field) (name : string) : option FieldValue :=
  match fields with
  | [] => None
  | f :: rest => if String.eqb (GetName f) name then Some (GetValue f) else lookup_field rest name
  end.

Definition GetFieldValue (m : Message) (name : string) : option FieldValue :=
  lookup_field (GetFields m) name.

(** ** The encoder's data *)

Record dedupe : Type := mkDedupe {
  data : string;
  skipped : bool;
  ts : Z;
  val : FieldValue
}.

Record OpenTsdbRawEncoderConfig : Type := mkConfig {
  TagNamePrefix : string;
  TagValuePrefix : string;
  TsFromMessage : bool;
  FieldsToTags : bool;
  AddHostnameIfMissing : bool;
  DedupeFlush : Z
}.

Record OpenTsdbRawEncoder : Type := mkEncoder {
  config : OpenTsdbRawEncoderConfig;
  hostname : string;
  dedupeBuffer : gmap string dedupe
}.

(** [ConfigStruct]: the defaults. *)
Definition ConfigStruct : OpenTsdbRawEncoderConfig :=
  {| TagNamePrefix := ""; TagValuePrefix := ""; TsFromMessage := true;
     FieldsToTags := true; AddHostnameIfMissing := true; DedupeFlush := 0 |}.

(** [Init]: [os_hostname] is what [os.Hostname()] returned (empty on
    failure). *)
Definition Init (cfg : OpenTsdbRawEncoderConfig) (os_hostname : string) : OpenTsdbRawEncoder :=
  {| config :=
       if negb (String.eqb (TagNamePrefix cfg) "") && String.eqb (TagValuePrefix cfg) ""
       then {| TagNamePrefix := TagNamePrefix cfg; TagValuePrefix := ".";
               TsFromMessage := TsFromMessage cfg; FieldsToTags := FieldsToTags cfg;
               AddHostnameIfMissing := AddHostnameIfMissing cfg;
               DedupeFlush := DedupeFlush cfg |}
       else cfg;
     hostname := os_hostname;
     dedupeBuffer := ∅ |}.

(** What one call of [Encode] gives back: [(output, nil)] with [output]
    possibly [nil], [(nil, err)], or a run-time panic of the type assertion
    [metric.(string)]. *)
Inductive EncodeResult : Type :=
| Ok (output : option string)
| Err (err : string)
| Panic.

Definition newline : string := String (ascii_of_nat 10) EmptyString.

(** ** [Encode] *)

(** What lines 78-157 leave behind for the dedupe block: the rendered line
    [buf], the buffer [ftags], the two field values and the time of the
    event in nanoseconds ([timestamp.UnixNano()]). *)
Record Rendered : Type := mkRendered {
  buf : string;
  ftags : string;
  metric : FieldValue;
  value : FieldValue;
  timestamp : Z
}.

Inductive Outcome (A : Type) : Type :=
| Returns (a : A)
| Fails (err : string)
| Panics.

Arguments Returns {A} a.
Arguments Fails {A} err.
Arguments Panics {A}.

Section Encoder.

(** Go's rendering of a [float64] under [%v] (the shortest decimal form that
    reads back to the same bits); it belongs to Go's [fmt] and is taken as
    given. *)
Variable FormatFloat : Z -> string.

(** [fmt.Sprint(v)], which is also the verb [%v]. *)
Definition Sprint (v : FieldValue) : string :=
  match v with
  | VString s => s
  | VInt n => pretty n
  | VDouble bits => FormatFloat bits
  end.

(** The verb [%s]: a string prints as itself, any other type as Go's
    bad-verb form. *)
Definition Sprint_s (v : FieldValue) : string :=
  match v with
  | VString s => s
  | VInt n => "%!s(int64=" +:+ pretty n +:+ ")"
  | VDouble bits => "%!s(float64=" +:+ FormatFloat bits +:+ ")"
  end.

(** The body of the loop over the tags embedded in the metric name (lines
    123-131), on the pair of [buf] and [seenHostTag]. *)
Definition embedded_tag (tagValuePrefix : string) (st : string * bool) (tag : string)
  : string * bool :=
  match SplitN tag tagValuePrefix 2 with
  | [k; v] =>
      if negb (String.eqb k "") && negb (String.eqb v "") then
        (fst st +:+ (k +:+ "=" +:+ v),
         if String.eqb (ToLower k) "host" then true else snd st)
      else st
  | _ => st
  end.

Definition embedded_tags (tagValuePrefix : string) (tags : list string) (st : string * bool)
  : string * bool :=
  fold_left (embedded_tag tagValuePrefix) tags st.

(** The body of the loop over the message fields (lines 137-149), on the
    pair of [ftags] and [seenHostTag]. *)
Definition field_tag (tagNamePrefix : string) (st : string * bool) (field : Field)
  : string * bool :=
  let k := GetName field in
  if HasPrefix k tagNamePrefix then
    if String.eqb k "Metric" || String.eqb k "Value" then st
    else
      let k := TrimLeft k tagNamePrefix in
      (fst st +:+ (" " +:+ k +:+ "=" +:+ Sprint (GetValue field)),
       if String.eqb k "host" then true else snd st)
  else st.

Definition field_tags (tagNamePrefix : string) (fields : list Field) (st : string * bool)
  : string * bool :=
  fold_left (field_tag tagNamePrefix) fields st.

(** Lines 78-157 of [Encode]; [now] is the reading of [time.Now()] in
    nanoseconds since the epoch. *)
Definition render (oe : OpenTsdbRawEncoder) (now : Z) (msg : Message) : Outcome Rendered :=
  let cfg := config oe in
  match GetFieldValue msg "Metric" with
  | None => Fails "Unable to find Field[Metric] in message"
  | Some metric =>
      let name_and_tags : option (string * list string) :=
        if negb (String.eqb (TagNamePrefix cfg) "") then
          match metric with
          | VString m =>
              match Split m (TagNamePrefix cfg) with
              | name :: tags => Some (name, tags)
              | [] => None
              end
          | _ => None
          end
        else Some (Sprint metric, [])
      in
      match name_and_tags with
      | None => Panics
      | Some (name, tags) =>
          let buf := "put " +:+ name +:+ " " in
          let timestamp := if TsFromMessage cfg then GetTimestamp msg else now in
          let buf := buf +:+ pretty (timestamp / 1000000000) +:+ " " in
          match GetFieldValue msg "Value" with
          | None => Fails "Unable to find Field[Value] field in message"
          | Some value =>
              let buf := buf +:+ Sprint value in
              let st := embedded_tags (TagValuePrefix cfg) tags (buf, false) in
              let ft := if FieldsToTags cfg
                          then field_tags (TagNamePrefix cfg) (GetFields msg) ("", snd st)
                          else ("", snd st) in
              let buf := fst st +:+ fst ft in
              let buf := if negb (snd ft) && AddHostnameIfMissing cfg
                            && negb (String.eqb (hostname oe) "")
                         then buf +:+ (" host=" +:+ hostname oe) else buf in
              let buf := buf +:+ newline in
              Returns {| buf := buf; ftags := fst ft; metric := metric;
                         value := value; timestamp := timestamp |}
          end
      end
  end.

(** The window in nanoseconds, [oe.config.DedupeFlush*1e9], and the time
    elapsed since a stored time, [timestamp.UnixNano()-ts], both in [int64]. *)
Definition window_nanos (cfg : OpenTsdbRawEncoderConfig) : Z := mul64 (DedupeFlush cfg) 1000000000.

Definition elapsed_nanos (timestamp stored : Z) : Z := sub64 timestamp stored.

(** The key of a series, [fmt.Sprintf("%s:%s", metric, ftags)]. *)
Definition bufkey (r : Rendered) : string := Sprint_s (metric r) +:+ ":" +:+ ftags r.

(** Lines 160-191 of [Encode]: the dedupe block and the return. *)
Definition dedupe_block (oe : OpenTsdbRawEncoder) (r : Rendered)
  : option string * OpenTsdbRawEncoder :=
  let cfg := config oe in
  if 0 <? DedupeFlush cfg then
    let key := bufkey r in
    let flushed :=
      match dedupeBuffer oe !! key with
      | Some prior =>
          if iface_eq (val prior) (value r)
             && (elapsed_nanos (timestamp r) (ts prior) <? window_nanos cfg)
          then inl prior
          else if (skipped prior || (elapsed_nanos (timestamp r) (ts prior) >=? window_nanos cfg))
                  && negb (iface_eq (val prior) (value r))
          then inr (data prior +:+ buf r)
          else inr (buf r)
      | None => inr (buf r)
      end
    in
    match flushed with
    | inl prior =>
        (None,
         {| config := cfg; hostname := hostname oe;
            dedupeBuffer :=
              <[key := {| data := buf r; skipped := true; ts := ts prior; val := value r |}]>
                (dedupeBuffer oe) |})
    | inr out =>
        (Some out,
         {| config := cfg; hostname := hostname oe;
            dedupeBuffer :=
              <[key := {| data := out; skipped := false; ts := timestamp r; val := value r |}]>
                (dedupeBuffer oe) |})
    end
  else (Some (buf r), oe).

(** [Encode]: the result of the call and the encoder after it. *)
Definition Encode (oe : OpenTsdbRawEncoder) (now : Z) (msg : Message)
  : EncodeResult * OpenTsdbRawEncoder :=
  match render oe now msg with
  | Fails err => (Err err, oe)
  | Panics => (Panic, oe)
  | Returns r => let (out, oe') := dedupe_block oe r in (Ok out, oe')
  end.

End Encoder.

(** The encoders the program can be in: built by [Init], then used by
    [Encode] any number of times. *)
Inductive reachable (FormatFloat : Z -> string) : OpenTsdbRawEncoder -> Prop :=
| reachable_Init cfg os_hostname : reachable FormatFloat (Init cfg os_hostname)
| reachable_Encode oe now msg :
    reachable FormatFloat oe -> reachable FormatFloat (snd (Encode FormatFloat oe now msg)).

(** The tags that field promotion gives when no name is trimmed: one
    [" name=value"] for every field not named [Metric] or [Value], in the
    order of the fields. *)
Fixpoint untrimmed_field_tags (FormatFloat : Z -> string) (fields : list Field) : string :=
  match fields with
  | [] => ""
  | f :: rest =>
      if String.eqb (GetName f) "Metric" || String.eqb (GetName f) "Value"
      then untrimmed_field_tags FormatFloat rest
      else (" " +:+ GetName f +:+ "=" +:+ Sprint FormatFloat (GetValue f))
           +:+ untrimmed_field_tags FormatFloat rest
  end.



(** ** Notions used to state further properties *)

(** [strings.Join(pieces, sep)].  The encoder never joins; it is what
    [Split] undoes. *)
Fixpoint Join (pieces : list string) (sep : string) : string :=
  match pieces with
  | [] => ""
  | piece :: rest =>
      match rest with
      | [] => piece
      | _ :: _ => piece +:+ sep +:+ Join rest sep
      end
  end.

(** The test of lines 139-142: the fields that the loop turns into tags. *)
Definition promotable (tagNamePrefix : string) (f : Field) : bool :=
  HasPrefix (GetName f) tagNamePrefix
  && negb (String.eqb (GetName f) "Metric" || String.eqb (GetName f) "Value").

(** One [" key=value"] per promotable field, in the order of the fields,
    the key being the trimmed name. *)
Fixpoint promoted_tags (FormatFloat : Z -> string) (tagNamePrefix : string)
  (fields : list Field) : string :=
  match fields with
  | [] => ""
  | f :: rest =>
      if promotable tagNamePrefix f
      then (" " +:+ TrimLeft (GetName f) tagNamePrefix +:+ "="
            +:+ Sprint FormatFloat (GetValue f))
           +:+ promoted_tags FormatFloat tagNamePrefix rest
      else promoted_tags FormatFloat tagNamePrefix rest
  end.

(** The same encoder on a host of another name. *)
Definition with_hostname (oe : OpenTsdbRawEncoder) (os_hostname : string) : OpenTsdbRawEncoder :=
  {| config := config oe; hostname := os_hostname; dedupeBuffer := dedupeBuffer oe |}.

(** The encoder after a list of calls, each with its clock reading. *)
Fixpoint Encode_all (FormatFloat : Z -> string) (oe : OpenTsdbRawEncoder)
  (calls : list (Z * Message)) : OpenTsdbRawEncoder :=
  match calls with
  | [] => oe
  | (now, msg) :: rest => Encode_all FormatFloat (snd (Encode FormatFloat oe now msg)) rest
  end.

(** A float of which Go's [==] says it differs from itself. *)
Definition quiet_NaN : Z := 9221120237041090560.

(** ** Sample encoders and records

    None of them holds a float, so the rendering of floats plays no part. *)

Definition no_floats (_ : Z) : string := "".

(** A record of the series [cpu] with an integer value, [secs] seconds
    after the epoch. *)
Definition cpu_point (v secs : Z) : Message :=
  mkMessage [mkField "Metric" (VString "cpu"); mkField "Value" (VInt v)] (secs * 1000000000).

(** The defaults of [ConfigStruct] with the options [tagname_prefix] and
    [dedupe_window] set. *)
Definition configure (tagname_prefix : string) (dedupe_window : Z) : OpenTsdbRawEncoderConfig :=
  {| TagNamePrefix := tagname_prefix;
     TagValuePrefix := TagValuePrefix ConfigStruct;
     TsFromMessage := TsFromMessage ConfigStruct;
     FieldsToTags := FieldsToTags ConfigStruct;
     AddHostnameIfMissing := AddHostnameIfMissing ConfigStruct;
     DedupeFlush := dedupe_window |}.

(** A dedupe window of 60 seconds, on a host whose name could not be
    resolved. *)
Definition window60 : OpenTsdbRawEncoder := Init (configure "" 60) "".

(** The encoder after each record of a run. *)
Fixpoint run (oe : OpenTsdbRawEncoder) (msgs : list Message) : OpenTsdbRawEncoder :=
  match msgs with
  | [] => oe
  | msg :: rest => run (snd (Encode no_floats oe 0 msg)) rest
  end.

(** An encoder that takes embedded tags after [tagname_prefix], no dedupe. *)
Definition embedded (tagname_prefix os_hostname : string) : OpenTsdbRawEncoder :=
  Init (configure tagname_prefix 0) os_hostname.

Definition metric_point (metric_name : string) (extra : list Field) : Message :=
  mkMessage (mkField "Metric" (VString metric_name) :: mkField "Value" (VInt 1) :: extra)
            5000000000.

(** ** Facts about strings *)

Lemma append_assoc_s (a b c : string) : (a +:+ b) +:+ c = a +:+ (b +:+ c).
Proof. induction a as [|x a IH]; simpl; [reflexivity | now rewrite IH]. Qed.

Lemma append_cons_s (x : ascii) (a b : string) : String x a +:+ b = String x (a +:+ b).
Proof. reflexivity. Qed.

Lemma append_nil_l (a : string) : "" +:+ a = a.
Proof. reflexivity. Qed.

(** Both sides of an equation between concatenations, nested to the right. *)
Ltac normalize_append :=
  repeat (rewrite append_assoc_s || rewrite append_cons_s || rewrite append_nil_l).

Lemma append_nil_r (a : string) : a +:+ "" = a.
Proof. induction a as [|x a IH]; simpl; [reflexivity | now rewrite IH]. Qed.

Lemma append_inv_head (a b c : string) : a +:+ b = a +:+ c -> b = c.
Proof. induction a as [|x a IH]; simpl; intros H; [exact H | injection H as H; auto]. Qed.

Lemma length_append_s (a b : string) :
  String.length (a +:+ b) = (String.length a + String.length b)%nat.
Proof. induction a as [|x a IH]; simpl; [reflexivity | now rewrite IH]. Qed.

Lemma prefix_nil_l (s : string) : String.prefix "" s = true.
Proof. destruct s; reflexivity. Qed.

Lemma prefix_cons_nil (c : ascii) (p : string) : String.prefix (String c p) "" = false.
Proof. reflexivity. Qed.

Lemma prefix_split (p s : string) :
  String.prefix p s = true -> s = p +:+ slice_from (String.length p) s.
Proof.
  revert p; induction s as [|c s IH]; intros [|d p]; simpl; try reflexivity; try discriminate.
  destruct (ascii_dec d c) as [->|]; [|discriminate].
  intros H. now rewrite <- (IH p H).
Qed.

Lemma prefix_append (p s x : string) :
  String.prefix p s = true -> String.prefix p (s +:+ x) = true.
Proof.
  revert p; induction s as [|c s IH]; intros [|d p]; simpl; try reflexivity; try discriminate.
  - intros _. apply prefix_nil_l.
  - destruct (ascii_dec d c); [apply IH | discriminate].
Qed.

Lemma slice_from_length (n : nat) (s : string) :
  (String.length (slice_from n s) <= String.length s)%nat.
Proof.
  revert s; induction n as [|n IH]; intros [|c s]; simpl; try lia.
  specialize (IH s). lia.
Qed.

Lemma slice_from_lt (n : nat) (s : string) :
  (0 < n)%nat -> s <> "" -> (String.length (slice_from n s) < String.length s)%nat.
Proof.
  intros Hn Hs. destruct n as [|n]; [lia|]. destruct s as [|c s]; [congruence|].
  simpl. pose proof (slice_from_length n s). lia.
Qed.

(** ** Facts about [Cut], [Split] and [SplitN] *)

Lemma Cut_nil (sep : string) : sep <> "" -> Cut "" sep = None.
Proof. destruct sep; [congruence | reflexivity]. Qed.

Lemma Cut_unfold (s sep : string) :
  Cut s sep =
    if String.prefix sep s then Some ("", slice_from (String.length sep) s)
    else match s with
         | EmptyString => None
         | String c s' =>
             match Cut s' sep with
             | Some (before, after) => Some (String c before, after)
             | None => None
             end
         end.
Proof. destruct s; reflexivity. Qed.

(** A cut takes the string apart around one occurrence of the separator. *)
Lemma Cut_Some_append (s sep before after : string) :
  Cut s sep = Some (before, after) -> s = before +:+ sep +:+ after.
Proof.
  revert before after; induction s as [|c s IH]; intros before after; rewrite Cut_unfold.
  - destruct (String.prefix sep "") eqn:Hp; [|discriminate].
    intros [= <- <-]. simpl. now apply prefix_split.
  - destruct (String.prefix sep (String c s)) eqn:Hp.
    + intros [= <- <-]. now apply prefix_split.
    + destruct (Cut s sep) as [[b a]|] eqn:Hc; [|discriminate].
      intros [= <- <-]. simpl. now rewrite <- (IH b a eq_refl).
Qed.

(** That occurrence is the first one: the piece before it has none. *)
Lemma Cut_Some_before (s sep before after : string) :
  sep <> "" -> Cut s sep = Some (before, after) -> Cut before sep = None.
Proof.
  intros Hsep. revert before after; induction s as [|c s IH]; intros before after;
    rewrite Cut_unfold.
  - destruct (String.prefix sep "") eqn:Hp; [|discriminate].
    intros [= <- <-]. now apply Cut_nil.
  - destruct (String.prefix sep (String c s)) eqn:Hp.
    + intros [= <- <-]. now apply Cut_nil.
    + destruct (Cut s sep) as [[b a]|] eqn:Hc; [|discriminate].
      intros [= <- <-]. rewrite Cut_unfold, (IH b a eq_refl).
      destruct (String.prefix sep (String c b)) eqn:Hq; [|reflexivity].
      apply Cut_Some_append in Hc. subst s.
      apply (prefix_append _ _ (sep +:+ a)) in Hq.
      change (String c b +:+ (sep +:+ a)) with (String c (b +:+ sep +:+ a)) in Hq. congruence.
Qed.

Lemma Cut_Some_length (s sep before after : string) :
  sep <> "" -> Cut s sep = Some (before, after) ->
  (String.length after < String.length s)%nat.
Proof.
  intros Hsep H. apply Cut_Some_append in H. subst s.
  rewrite !length_append_s. destruct sep; [congruence | simpl; lia].
Qed.

Lemma genSplit_loop_not_nil (sep : string) (n : nat) (s : string) :
  genSplit_loop sep n s <> [].
Proof. destruct n; simpl; [discriminate|]. destruct (Cut s sep) as [[? ?]|]; discriminate. Qed.

(** The fuel of [Split] is enough: more of it changes nothing. *)
Lemma genSplit_loop_enough (sep : string) (n m : nat) (s : string) :
  sep <> "" -> (String.length s <= n)%nat -> (String.length s <= m)%nat ->
  genSplit_loop sep n s = genSplit_loop sep m s.
Proof.
  intros Hsep. revert m s; induction n as [|n IH]; intros m s Hn Hm.
  - destruct s; [|simpl in Hn; lia].
    destruct m; cbn [genSplit_loop]; [reflexivity|]. now rewrite Cut_nil.
  - destruct m as [|m].
    + destruct s; [|simpl in Hm; lia]. cbn [genSplit_loop]. now rewrite Cut_nil.
    + cbn [genSplit_loop]. destruct (Cut s sep) as [[b a]|] eqn:Hc; [|reflexivity].
      pose proof (Cut_Some_length _ _ _ _ Hsep Hc). f_equal. apply IH; lia.
Qed.

(** [Split] cuts at the first occurrence and goes on with the rest, until
    the separator no longer occurs. *)
Lemma Split_unfold (s sep : string) :
  sep <> "" ->
  Split s sep = match Cut s sep with
                | None => [s]
                | Some (piece, rest) => piece :: Split rest sep
                end.
Proof.
  intros Hsep. unfold Split. rewrite !bool_decide_eq_false_2 by assumption.
  destruct (Cut s sep) as [[b a]|] eqn:Hc.
  - pose proof (Cut_Some_length _ _ _ _ Hsep Hc) as Hlen.
    destruct (String.length s) as [|n] eqn:Hs; [lia|].
    cbn [genSplit_loop]. rewrite Hc. f_equal. apply genSplit_loop_enough; [assumption | lia | lia].
  - destruct (String.length s); cbn [genSplit_loop]; now rewrite ?Hc.
Qed.

Lemma Split_not_nil (s sep : string) : sep <> "" -> Split s sep <> [].
Proof.
  intros Hsep. unfold Split. rewrite bool_decide_eq_false_2 by assumption.
  apply genSplit_loop_not_nil.
Qed.



(** [SplitN] with limit 2 and a separator that is not empty. *)
Lemma SplitN_2 (s sep : string) :
  sep <> "" ->
  SplitN s sep 2 = match Cut s sep with
                   | None => [s]
                   | Some (k, v) => [k; v]
                   end.
Proof.
  intros Hsep. unfold SplitN. rewrite bool_decide_eq_false_2 by assumption.
  destruct s as [|c s].
  - cbn [genSplit_loop Nat.min String.length]. now rewrite Cut_nil.
  - change (Nat.min 1 (String.length (String c s))) with 1%nat.
    cbn [genSplit_loop]. destruct (Cut (String c s) sep) as [[b a]|]; reflexivity.
Qed.

(** ** Facts about the dedupe block *)

Section EncoderFacts.

Variable FormatFloat : Z -> string.

Lemma Encode_Returns (oe : OpenTsdbRawEncoder) (now : Z) (msg : Message) (r : Rendered) :
  render FormatFloat oe now msg = Returns r ->
  Encode FormatFloat oe now msg =
    (Ok (fst (dedupe_block FormatFloat oe r)), snd (dedupe_block FormatFloat oe r)).
Proof.
  intros H. unfold Encode. rewrite H. now destruct (dedupe_block FormatFloat oe r).
Qed.

(** With the window disabled the rendered line goes out and nothing is
    recorded. *)
Lemma dedupe_block_disabled (oe : OpenTsdbRawEncoder) (r : Rendered) :
  DedupeFlush (config oe) <= 0 -> dedupe_block FormatFloat oe r = (Some (buf r), oe).
Proof.
  intros H. unfold dedupe_block.
  destruct (0 <? DedupeFlush (config oe)) eqn:E; [apply Z.ltb_lt in E; lia | reflexivity].
Qed.

(** [Encode] never touches the configuration or the host name. *)
Lemma Encode_config (oe : OpenTsdbRawEncoder) (now : Z) (msg : Message) :
  config (snd (Encode FormatFloat oe now msg)) = config oe.
Proof.
  unfold Encode. destruct (render FormatFloat oe now msg) as [r| |]; try reflexivity.
  unfold dedupe_block. destruct (0 <? DedupeFlush (config oe)); [|reflexivity].
  destruct (dedupeBuffer oe !! bufkey FormatFloat r) as [prior|]; [|reflexivity].
  destruct (iface_eq (val prior) (value r) && _); [reflexivity|].
  destruct ((skipped prior || _) && _); reflexivity.
Qed.

(** An encoder whose window is disabled never holds a state. *)
Lemma reachable_disabled_empty (oe : OpenTsdbRawEncoder) :
  reachable FormatFloat oe -> DedupeFlush (config oe) <= 0 -> dedupeBuffer oe = ∅.
Proof.
  induction 1 as [cfg h | oe now msg Hr IH]; intros Hle.
  - reflexivity.
  - rewrite Encode_config in Hle. unfold Encode.
    destruct (render FormatFloat oe now msg) as [r| |]; simpl; auto.
    rewrite dedupe_block_disabled by assumption. simpl. auto.
Qed.

Lemma reachable_state_enabled (oe : OpenTsdbRawEncoder) (key : string) (prior : dedupe) :
  reachable FormatFloat oe -> dedupeBuffer oe !! key = Some prior -> 0 < DedupeFlush (config oe).
Proof.
  intros Hr Hl. destruct (Z_lt_le_dec 0 (DedupeFlush (config oe))) as [|Hle]; [assumption|].
  rewrite (reachable_disabled_empty oe Hr Hle) in Hl. now rewrite lookup_empty in Hl.
Qed.

(** [Init] gives every tag-name prefix a value prefix, and [Encode] keeps
    it: [SplitN] never runs with an empty separator. *)
Lemma reachable_TagValuePrefix (oe : OpenTsdbRawEncoder) :
  reachable FormatFloat oe ->
  TagNamePrefix (config oe) <> "" -> TagValuePrefix (config oe) <> "".
Proof.
  induction 1 as [cfg h | oe now msg Hr IH].
  - unfold Init. cbn [config].
    destruct (String.eqb (TagNamePrefix cfg) "") eqn:Hn; cbn [negb andb].
    + apply String.eqb_eq in Hn. congruence.
    + destruct (String.eqb (TagValuePrefix cfg) "") eqn:Hv; intros _.
      * cbn. discriminate.
      * now apply String.eqb_neq.
  - now rewrite Encode_config.
Qed.

(** Within the range of [int64] nothing wraps. *)
Lemma wrap64_in_range (z : Z) : - 2 ^ 63 <= z < 2 ^ 63 -> wrap64 z = z.
Proof. intros H. unfold wrap64. rewrite Z.mod_small; lia. Qed.

(** A difference of times that is the window's length in nanoseconds is
    so in [int64] as well. *)
Lemma elapsed_exactly_window (cfg : OpenTsdbRawEncoderConfig) (timestamp stored : Z) :
  timestamp - stored = DedupeFlush cfg * 1000000000 ->
  elapsed_nanos timestamp stored = window_nanos cfg.
Proof. intros H. unfold elapsed_nanos, window_nanos, sub64, mul64. now rewrite H. Qed.

(** Whatever the dedupe block lets out is also what it stores as the last
    line of the series. *)
Lemma dedupe_block_stores_output (oe oe' : OpenTsdbRawEncoder) (r : Rendered) (out : string) :
  0 < DedupeFlush (config oe) ->
  dedupe_block FormatFloat oe r = (Some out, oe') ->
  dedupeBuffer oe' !! bufkey FormatFloat r =
    Some {| data := out; skipped := false; ts := timestamp r; val := value r |}.
Proof.
  intros Hw. unfold dedupe_block. apply Z.ltb_lt in Hw. rewrite Hw.
  destruct (dedupeBuffer oe !! bufkey FormatFloat r) as [prior|].
  - destruct (iface_eq (val prior) (value r) && _); [discriminate|].
    destruct ((skipped prior || _) && _); intros [= <- <-]; simpl; apply lookup_insert_eq.
  - intros [= <- <-]. simpl. apply lookup_insert_eq.
Qed.

(** C2: a record of a series that has a state, with the stored value and
    less than the window after the stored time, gives no output; the state
    becomes the rendered line, marked skipped, with the record's value and
    the stored time kept. *)
Theorem Encode_suppresses
  (oe : OpenTsdbRawEncoder) (now : Z) (msg : Message) (r : Rendered) (prior : dedupe) :
  render FormatFloat oe now msg = Returns r ->
  0 < DedupeFlush (config oe) ->
  dedupeBuffer oe !! bufkey FormatFloat r = Some prior ->
  iface_eq (val prior) (value r) = true ->
  elapsed_nanos (timestamp r) (ts prior) < window_nanos (config oe) ->
  Encode FormatFloat oe now msg =
    (Ok None,
     {| config := config oe; hostname := hostname oe;
        dedupeBuffer :=
          <[bufkey FormatFloat r :=
              {| data := buf r; skipped := true; ts := ts prior; val := value r |}]>
            (dedupeBuffer oe) |}).
Proof.
  intros Hr Hw Hl Hv He. rewrite (Encode_Returns _ _ _ _ Hr).
  unfold dedupe_block. apply Z.ltb_lt in Hw, He. now rewrite Hw, Hl, Hv, He.
Qed.

(** C3: when the series has a state, the value differs from the stored one
    and the state was skipped or is at least a window old, the output is the
    stored line followed by the rendered line; every other output is the
    rendered line alone. *)
Theorem Encode_flushes_only_on_change
  (oe : OpenTsdbRawEncoder) (now : Z) (msg : Message) (r : Rendered) :
  render FormatFloat oe now msg = Returns r ->
  (forall prior,
      0 < DedupeFlush (config oe) ->
      dedupeBuffer oe !! bufkey FormatFloat r = Some prior ->
      iface_eq (val prior) (value r) = false ->
      skipped prior = true
      \/ window_nanos (config oe) <= elapsed_nanos (timestamp r) (ts prior) ->
      fst (Encode FormatFloat oe now msg) = Ok (Some (data prior +:+ buf r)))
  /\ (forall out,
         fst (Encode FormatFloat oe now msg) = Ok (Some out) ->
         out <> buf r ->
         exists prior,
           0 < DedupeFlush (config oe)
           /\ dedupeBuffer oe !! bufkey FormatFloat r = Some prior
           /\ iface_eq (val prior) (value r) = false
           /\ (skipped prior = true
               \/ window_nanos (config oe) <= elapsed_nanos (timestamp r) (ts prior))
           /\ out = data prior +:+ buf r).
Proof.
  intros Hr. rewrite (Encode_Returns _ _ _ _ Hr). simpl. split.
  - intros prior Hw Hl Hv Hc. unfold dedupe_block.
    apply Z.ltb_lt in Hw. rewrite Hw, Hl, Hv. simpl.
    replace (skipped prior || (elapsed_nanos (timestamp r) (ts prior) >=? window_nanos (config oe)))
      with true; [reflexivity|].
    symmetry. apply orb_true_iff. destruct Hc as [Hc|Hc]; [now left|right].
    rewrite Z.geb_le. lia.
  - intros out. unfold dedupe_block.
    destruct (0 <? DedupeFlush (config oe)) eqn:Hw; [|simpl; intros [= <-]; congruence].
    apply Z.ltb_lt in Hw.
    destruct (dedupeBuffer oe !! bufkey FormatFloat r) as [prior|];
      [|simpl; intros [= <-]; congruence].
    destruct (iface_eq (val prior) (value r) && _); [discriminate|].
    destruct ((skipped prior || _) && _) eqn:Hc; simpl; intros [= <-] Hne; [|congruence].
    apply andb_true_iff in Hc as [Hc Hv]. apply negb_true_iff in Hv.
    apply orb_true_iff in Hc. exists prior. repeat split; try assumption; try reflexivity.
    destruct Hc as [Hc|Hc]; [now left | right]. rewrite Z.geb_le in Hc. lia.
Qed.

(** C6: on an encoder the program can be in, a record of a series that has
    a state, with the stored value and exactly one window after the stored
    time, is not held back: the rendered line alone goes out and the state
    becomes that line, not skipped, with the record's value and time. *)
Theorem Encode_at_window_boundary
  (oe : OpenTsdbRawEncoder) (now : Z) (msg : Message) (r : Rendered) (prior : dedupe) :
  reachable FormatFloat oe ->
  render FormatFloat oe now msg = Returns r ->
  dedupeBuffer oe !! bufkey FormatFloat r = Some prior ->
  iface_eq (val prior) (value r) = true ->
  elapsed_nanos (timestamp r) (ts prior) = window_nanos (config oe) ->
  Encode FormatFloat oe now msg =
    (Ok (Some (buf r)),
     {| config := config oe; hostname := hostname oe;
        dedupeBuffer :=
          <[bufkey FormatFloat r :=
              {| data := buf r; skipped := false; ts := timestamp r; val := value r |}]>
            (dedupeBuffer oe) |}).
Proof.
  intros Hreach Hr Hl Hv He. pose proof (reachable_state_enabled _ _ _ Hreach Hl) as Hw.
  rewrite (Encode_Returns _ _ _ _ Hr). unfold dedupe_block.
  apply Z.ltb_lt in Hw. rewrite Hw, Hl, Hv, He, Z.ltb_irrefl. simpl.
  now rewrite andb_false_r.
Qed.

End EncoderFacts.

(** ** Facts about the line formatter *)

Section FormatterFacts.

Variable FormatFloat : Z -> string.

Lemma embedded_tags_app (tvp : string) (l1 l2 : list string) (st : string * bool) :
  embedded_tags tvp (l1 ++ l2) st = embedded_tags tvp l2 (embedded_tags tvp l1 st).
Proof. unfold embedded_tags. apply fold_left_app. Qed.




Lemma TrimLeft_empty_cutset (s : string) : TrimLeft s "" = s.
Proof. destruct s; reflexivity. Qed.


Lemma field_tags_no_prefix (fields : list Field) (st : string * bool) :
  fst (field_tags FormatFloat "" fields st) = fst st +:+ untrimmed_field_tags FormatFloat fields.
Proof.
  revert st; induction fields as [|f rest IH]; intros st.
  - simpl. now rewrite append_nil_r.
  - unfold field_tags in *. cbn [fold_left untrimmed_field_tags]. rewrite IH.
    unfold field_tag, HasPrefix. rewrite prefix_nil_l, TrimLeft_empty_cutset.
    destruct (String.eqb (GetName f) "Metric" || String.eqb (GetName f) "Value");
      [reflexivity|].
    cbn [fst]. now rewrite append_assoc_s.
Qed.

Lemma untrimmed_field_tags_holds (fields : list Field) (f : Field) :
  In f fields -> GetName f <> "Metric" -> GetName f <> "Value" ->
  exists pre post,
    untrimmed_field_tags FormatFloat fields =
      pre +:+ (" " +:+ GetName f +:+ "=" +:+ Sprint FormatFloat (GetValue f)) +:+ post.
Proof.
  intros Hin Hm Hv. induction fields as [|g rest IH]; [contradiction|].
  cbn [untrimmed_field_tags]. destruct Hin as [->|Hin].
  - apply String.eqb_neq in Hm, Hv. rewrite Hm, Hv. cbn [orb].
    exists "", (untrimmed_field_tags FormatFloat rest). reflexivity.
  - destruct (IH Hin) as (pre & post & ->).
    destruct (String.eqb (GetName g) "Metric" || String.eqb (GetName g) "Value").
    + now exists pre, post.
    + exists ((" " +:+ GetName g +:+ "=" +:+ Sprint FormatFloat (GetValue g)) +:+ pre), post.
      now rewrite !append_assoc_s.
Qed.


(** C8: an embedded tag segment that [SplitN] does not take apart into two
    non-empty parts adds nothing: the line and the host flag after the loop
    are those of the tag list without that segment. *)
Theorem malformed_segment_is_dropped
  (tagValuePrefix seg : string) (before after : list string) (st : string * bool) :
  (forall k v, SplitN seg tagValuePrefix 2 = [k; v] -> k = "" \/ v = "") ->
  embedded_tags tagValuePrefix (before ++ seg :: after) st =
    embedded_tags tagValuePrefix (before ++ after) st.
Proof.
  intros Hbad. rewrite !embedded_tags_app.
  generalize (embedded_tags tagValuePrefix before st) as st0. intros st0.
  unfold embedded_tags. cbn [fold_left]. f_equal.
  unfold embedded_tag.
  destruct (SplitN seg tagValuePrefix 2) as [|k [|v [|x l]]] eqn:Hs; try reflexivity.
  destruct (Hbad k v eq_refl) as [-> | ->]; cbn; [reflexivity|].
  now rewrite andb_false_r.
Qed.


(** C10: with an empty tag-name prefix and field promotion on, the tag
    buffer is one [" name=value"] per field not named [Metric] or [Value],
    each under its whole name, and the rendered line carries that buffer. *)
Theorem empty_prefix_promotes_every_field
  (oe : OpenTsdbRawEncoder) (now : Z) (msg : Message) (r : Rendered) :
  TagNamePrefix (config oe) = "" ->
  FieldsToTags (config oe) = true ->
  render FormatFloat oe now msg = Returns r ->
  ftags r = untrimmed_field_tags FormatFloat (GetFields msg)
  /\ (forall f, In f (GetFields msg) -> GetName f <> "Metric" -> GetName f <> "Value" ->
        exists pre post,
          ftags r = pre +:+ (" " +:+ GetName f +:+ "=" +:+ Sprint FormatFloat (GetValue f))
                    +:+ post)
  /\ (exists host_tag,
        (host_tag = "" \/ host_tag = " host=" +:+ hostname oe)
        /\ buf r = (("put " +:+ Sprint FormatFloat (metric r) +:+ " ")
                    +:+ pretty (timestamp r / 1000000000) +:+ " ")
                   +:+ Sprint FormatFloat (value r) +:+ ftags r +:+ host_tag +:+ newline).
Proof.
  intros Hp Hf. unfold render. rewrite Hp, Hf. cbn [String.eqb negb].
  destruct (GetFieldValue msg "Metric") as [m|]; [|discriminate].
  destruct (GetFieldValue msg "Value") as [v|]; [|discriminate].
  intros [= <-]. cbn [ftags buf metric value timestamp embedded_tags fold_left fst snd].
  rewrite field_tags_no_prefix. cbn [fst]. change ("" +:+ ?x) with x.
  split; [reflexivity|]. split.
  - intros f Hin Hm Hv. now apply untrimmed_field_tags_holds.
  - match goal with |- context [if ?c then _ else _] => destruct c end.
    + exists (" host=" +:+ hostname oe). split; [now right|].
      normalize_append. reflexivity.
    + exists "". split; [now left|]. normalize_append. reflexivity.
Qed.


End FormatterFacts.

(** ** The code on sample runs *)

(** C1: after a first record, a second one held back and a third one with
    another value, the line rendered for the third record is its own data
    point, but the state stored for the series holds the flushed line and
    that line together. *)
Theorem flush_stores_both_lines :
  let before := run window60 [cpu_point 1 0; cpu_point 1 10] in
  let after := run window60 [cpu_point 1 0; cpu_point 1 10; cpu_point 2 20] in
  render no_floats before 0 (cpu_point 2 20) =
    Returns {| buf := "put cpu 20 2" +:+ newline; ftags := ""; metric := VString "cpu";
               value := VInt 2; timestamp := 20000000000 |}
  /\ fst (Encode no_floats before 0 (cpu_point 2 20)) =
       Ok (Some (("put cpu 10 1" +:+ newline) +:+ ("put cpu 20 2" +:+ newline)))
  /\ dedupeBuffer after !! "cpu:" =
       Some {| data := ("put cpu 10 1" +:+ newline) +:+ ("put cpu 20 2" +:+ newline);
               skipped := false; ts := 20000000000; val := VInt 2 |}
  /\ fst (Encode no_floats after 0 (cpu_point 3 100)) =
       Ok (Some (("put cpu 10 1" +:+ newline) +:+ ("put cpu 20 2" +:+ newline)
                 +:+ ("put cpu 100 3" +:+ newline))).
Proof. vm_compute. repeat split. Qed.

(** C5: a field named [Host] is promoted to the tag [Host] and the
    fallback host tag is appended all the same, whereas an embedded tag of
    key [Host] keeps the fallback away. *)
Theorem promoted_Host_is_not_seen :
  fst (Encode no_floats (embedded "" "h1") 0
         (metric_point "cpu" [mkField "Host" (VString "web1")])) =
    Ok (Some ("put cpu 5 1 Host=web1 host=h1" +:+ newline))
  /\ fst (Encode no_floats (embedded "#" "h1") 0 (metric_point "cpu#Host.web1" [])) =
       Ok (Some ("put cpu 5 1Host=web1" +:+ newline))
  /\ fst (Encode no_floats (embedded "" "h1") 0
            (metric_point "cpu" [mkField "host" (VString "web1")])) =
       Ok (Some ("put cpu 5 1 host=web1" +:+ newline)).
Proof. vm_compute. repeat split. Qed.


(** ** The theorems at sample inputs *)

Lemma Encode_suppresses_witness :
  fst (Encode no_floats window60 0 (cpu_point 1 0)) = Ok (Some ("put cpu 0 1" +:+ newline))
  /\ Encode no_floats (run window60 [cpu_point 1 0]) 0 (cpu_point 1 10) =
       (Ok None,
        {| config := config window60; hostname := "";
           dedupeBuffer :=
             <["cpu:" := {| data := "put cpu 10 1" +:+ newline; skipped := true; ts := 0;
                            val := VInt 1 |}]>
               (dedupeBuffer (run window60 [cpu_point 1 0])) |}).
Proof.
  split; [vm_compute; reflexivity|].
  apply (Encode_suppresses no_floats (run window60 [cpu_point 1 0]) 0 (cpu_point 1 10)
           {| buf := "put cpu 10 1" +:+ newline; ftags := ""; metric := VString "cpu";
              value := VInt 1; timestamp := 10000000000 |}
           {| data := "put cpu 0 1" +:+ newline; skipped := false; ts := 0; val := VInt 1 |});
    vm_compute; reflexivity.
Defined.

Lemma Encode_flushes_only_on_change_witness :
  fst (Encode no_floats (run window60 [cpu_point 1 0; cpu_point 1 10]) 0 (cpu_point 2 20)) =
    Ok (Some (("put cpu 10 1" +:+ newline) +:+ ("put cpu 20 2" +:+ newline))).
Proof.
  apply (proj1 (Encode_flushes_only_on_change no_floats
                  (run window60 [cpu_point 1 0; cpu_point 1 10]) 0 (cpu_point 2 20)
                  {| buf := "put cpu 20 2" +:+ newline; ftags := ""; metric := VString "cpu";
                     value := VInt 2; timestamp := 20000000000 |}
                  ltac:(vm_compute; reflexivity))
           {| data := "put cpu 10 1" +:+ newline; skipped := true; ts := 0; val := VInt 1 |}).
  - vm_compute; reflexivity.
  - vm_compute; reflexivity.
  - vm_compute; reflexivity.
  - left. reflexivity.
Defined.

Lemma Encode_at_window_boundary_witness :
  Encode no_floats (run window60 [cpu_point 1 0]) 0 (cpu_point 1 60) =
    (Ok (Some ("put cpu 60 1" +:+ newline)),
     {| config := config window60; hostname := "";
        dedupeBuffer :=
          <["cpu:" := {| data := "put cpu 60 1" +:+ newline; skipped := false;
                         ts := 60000000000; val := VInt 1 |}]>
            (dedupeBuffer (run window60 [cpu_point 1 0])) |}).
Proof.
  apply (Encode_at_window_boundary no_floats (run window60 [cpu_point 1 0]) 0 (cpu_point 1 60)
           {| buf := "put cpu 60 1" +:+ newline; ftags := ""; metric := VString "cpu";
              value := VInt 1; timestamp := 60000000000 |}
           {| data := "put cpu 0 1" +:+ newline; skipped := false; ts := 0; val := VInt 1 |}).
  - apply (reachable_Encode no_floats window60 0 (cpu_point 1 0)). apply reachable_Init.
  - vm_compute; reflexivity.
  - vm_compute; reflexivity.
  - vm_compute; reflexivity.
  - vm_compute; reflexivity.
Defined.


Lemma malformed_segment_is_dropped_witness :
  Split "cpu.hostweb1" "." = ["cpu"; "hostweb1"]
  /\ embedded_tags "." ([] ++ "hostweb1" :: []) ("put cpu 5 1", false) =
       embedded_tags "." ([] ++ []) ("put cpu 5 1", false).
Proof.
  split; [vm_compute; reflexivity|].
  apply (malformed_segment_is_dropped "." "hostweb1" [] [] ("put cpu 5 1", false)).
  intros k v H. vm_compute in H. discriminate.
Defined.


Lemma empty_prefix_promotes_every_field_witness :
  ftags {| buf := "put cpu 5 1 dc=ams rack=7" +:+ newline; ftags := " dc=ams rack=7";
           metric := VString "cpu"; value := VInt 1; timestamp := 5000000000 |} =
    untrimmed_field_tags no_floats
      (GetFields (metric_point "cpu" [mkField "dc" (VString "ams"); mkField "rack" (VInt 7)])).
Proof.
  apply (empty_prefix_promotes_every_field no_floats (embedded "" "") 0
           (metric_point "cpu" [mkField "dc" (VString "ams"); mkField "rack" (VInt 7)])
           {| buf := "put cpu 5 1 dc=ams rack=7" +:+ newline; ftags := " dc=ams rack=7";
              metric := VString "cpu"; value := VInt 1; timestamp := 5000000000 |});
    vm_compute; reflexivity.
Defined.


(** ** Further facts about the dedupe block *)

Section DedupeProperties.

Variable FormatFloat : Z -> string.

(** The formatter reads the configuration and the host name only. *)
Lemma render_same_settings (oe oe' : OpenTsdbRawEncoder) (now : Z) (msg : Message) :
  config oe' = config oe -> hostname oe' = hostname oe ->
  render FormatFloat oe' now msg = render FormatFloat oe now msg.
Proof. intros Hc Hh. unfold render. now rewrite Hc, Hh. Qed.

Lemma Encode_hostname (oe : OpenTsdbRawEncoder) (now : Z) (msg : Message) :
  hostname (snd (Encode FormatFloat oe now msg)) = hostname oe.
Proof.
  unfold Encode. destruct (render FormatFloat oe now msg) as [r| |]; try reflexivity.
  unfold dedupe_block. destruct (0 <? DedupeFlush (config oe)); [|reflexivity].
  destruct (dedupeBuffer oe !! bufkey FormatFloat r) as [prior|]; [|reflexivity].
  destruct (iface_eq (val prior) (value r) && _); [reflexivity|].
  destruct ((skipped prior || _) && _); reflexivity.
Qed.

(** The buffer after the dedupe block, when the window is on: the old one
    with one entry written at the key of the series. *)
Lemma dedupe_block_buffer (oe : OpenTsdbRawEncoder) (r : Rendered) :
  0 < DedupeFlush (config oe) ->
  exists d, dedupeBuffer (snd (dedupe_block FormatFloat oe r)) =
              <[bufkey FormatFloat r := d]> (dedupeBuffer oe).
Proof.
  intros Hw. unfold dedupe_block. apply Z.ltb_lt in Hw. rewrite Hw.
  destruct (dedupeBuffer oe !! bufkey FormatFloat r) as [prior|]; [|simpl; eauto].
  destruct (iface_eq (val prior) (value r) && _); [simpl; eauto|].
  destruct ((skipped prior || _) && _); simpl; eauto.
Qed.

Lemma window_nanos_in_range (cfg : OpenTsdbRawEncoderConfig) :
  0 < DedupeFlush cfg <= 9223372036 -> window_nanos cfg = DedupeFlush cfg * 1000000000.
Proof. intros H. unfold window_nanos, mul64. apply wrap64_in_range. lia. Qed.

(** X1: with the window off ([dedupe_window] zero or negative) a rendered
    record goes out as it is and the encoder is left untouched. *)
Theorem Encode_window_off
  (oe : OpenTsdbRawEncoder) (now : Z) (msg : Message) (r : Rendered) :
  render FormatFloat oe now msg = Returns r ->
  DedupeFlush (config oe) <= 0 ->
  Encode FormatFloat oe now msg = (Ok (Some (buf r)), oe).
Proof.
  intros Hr Hw. rewrite (Encode_Returns _ _ _ _ _ Hr).
  now rewrite dedupe_block_disabled.
Qed.

(** X2: however many calls were made, and whatever they returned, the
    configuration and the host name are those [Init] set and, with the
    window off, no series has a state. *)
Theorem Encode_all_keeps_settings
  (cfg : OpenTsdbRawEncoderConfig) (os_hostname : string) (calls : list (Z * Message)) :
  let oe := Encode_all FormatFloat (Init cfg os_hostname) calls in
  config oe = config (Init cfg os_hostname)
  /\ hostname oe = os_hostname
  /\ (DedupeFlush cfg <= 0 -> dedupeBuffer oe = ∅).
Proof.
  cbv zeta.
  assert (Hgen : forall oe0,
             config (Encode_all FormatFloat oe0 calls) = config oe0
             /\ hostname (Encode_all FormatFloat oe0 calls) = hostname oe0
             /\ (DedupeFlush (config oe0) <= 0 ->
                 dedupeBuffer (Encode_all FormatFloat oe0 calls) = dedupeBuffer oe0)).
  { induction calls as [|[now msg] rest IH]; intros oe0; [repeat split|].
    cbn [Encode_all]. destruct (IH (snd (Encode FormatFloat oe0 now msg))) as (Hc & Hh & Hb).
    rewrite Hc, Hh, Encode_config, Encode_hostname. repeat split.
    intros Hw. rewrite Hb by now rewrite Encode_config.
    unfold Encode. destruct (render FormatFloat oe0 now msg) as [r| |]; try reflexivity.
    now rewrite dedupe_block_disabled. }
  destruct (Hgen (Init cfg os_hostname)) as (Hc & Hh & Hb).
  repeat split; [assumption | assumption |].
  intros Hw. rewrite Hb; [reflexivity|].
  unfold Init; cbn [config]. now destruct (negb _ && _).
Qed.

(** X3: a call writes the state of one series at most: the state of any
    key that is not the key of the record is what it was. *)
Theorem Encode_leaves_other_series
  (oe : OpenTsdbRawEncoder) (now : Z) (msg : Message) (key : string) :
  (forall r, render FormatFloat oe now msg = Returns r -> key <> bufkey FormatFloat r) ->
  dedupeBuffer (snd (Encode FormatFloat oe now msg)) !! key = dedupeBuffer oe !! key.
Proof.
  intros Hkey. unfold Encode.
  destruct (render FormatFloat oe now msg) as [r| |] eqn:Hr; try reflexivity.
  specialize (Hkey r eq_refl).
  destruct (Z_lt_le_dec 0 (DedupeFlush (config oe))) as [Hw|Hw].
  - destruct (dedupe_block_buffer oe r Hw) as [d Hd].
    destruct (dedupe_block FormatFloat oe r) as [out oe'] eqn:Hb. simpl in *.
    rewrite Hd. apply lookup_insert_ne. congruence.
  - now rewrite dedupe_block_disabled.
Qed.

(** X4: with the window on, every rendered record leaves its series with a
    state, and no series ever loses one: the keys after the call are the
    keys before it and the key of the record. *)
Theorem Encode_records_the_series
  (oe : OpenTsdbRawEncoder) (now : Z) (msg : Message) (r : Rendered) :
  render FormatFloat oe now msg = Returns r ->
  0 < DedupeFlush (config oe) ->
  dom (dedupeBuffer (snd (Encode FormatFloat oe now msg))) =
    {[bufkey FormatFloat r]} ∪ dom (dedupeBuffer oe).
Proof.
  intros Hr Hw. rewrite (Encode_Returns _ _ _ _ _ Hr). cbn [snd].
  destruct (dedupe_block_buffer oe r Hw) as [d ->]. apply dom_insert_L.
Qed.

(** X5: with the window on, whatever a call puts out is what it stores as
    the last line of the series, not skipped, with the value and the time
    of the record. *)
Theorem Encode_stores_what_it_emits
  (oe : OpenTsdbRawEncoder) (now : Z) (msg : Message) (r : Rendered) (out : string) :
  render FormatFloat oe now msg = Returns r ->
  0 < DedupeFlush (config oe) ->
  fst (Encode FormatFloat oe now msg) = Ok (Some out) ->
  dedupeBuffer (snd (Encode FormatFloat oe now msg)) !! bufkey FormatFloat r =
    Some {| data := out; skipped := false; ts := timestamp r; val := value r |}.
Proof.
  intros Hr Hw. rewrite (Encode_Returns _ _ _ _ _ Hr). cbn [fst snd]. intros [= Hout].
  destruct (dedupe_block FormatFloat oe r) as [o oe'] eqn:Hb. simpl in *. subst o.
  now apply (dedupe_block_stores_output FormatFloat oe oe' r out).
Qed.

(** X6: with the window on, the rendered line goes out alone, and becomes
    the state of the series, when the series is new, when the value is the
    stored one and the state is at least a window old, and when the value
    differs while the state was not skipped and is less than a window old. *)
Theorem Encode_emits_rendered_line_alone
  (oe : OpenTsdbRawEncoder) (now : Z) (msg : Message) (r : Rendered) :
  render FormatFloat oe now msg = Returns r ->
  0 < DedupeFlush (config oe) ->
  dedupeBuffer oe !! bufkey FormatFloat r = None
  \/ (exists prior,
        dedupeBuffer oe !! bufkey FormatFloat r = Some prior
        /\ (iface_eq (val prior) (value r) = true
            /\ window_nanos (config oe) <= elapsed_nanos (timestamp r) (ts prior)
            \/ iface_eq (val prior) (value r) = false
               /\ skipped prior = false
               /\ elapsed_nanos (timestamp r) (ts prior) < window_nanos (config oe))) ->
  Encode FormatFloat oe now msg =
    (Ok (Some (buf r)),
     {| config := config oe; hostname := hostname oe;
        dedupeBuffer :=
          <[bufkey FormatFloat r :=
              {| data := buf r; skipped := false; ts := timestamp r; val := value r |}]>
            (dedupeBuffer oe) |}).
Proof.
  intros Hr Hw Hcase. rewrite (Encode_Returns _ _ _ _ _ Hr). unfold dedupe_block.
  apply Z.ltb_lt in Hw. rewrite Hw.
  destruct Hcase as [Hl | (prior & Hl & [[Hv He] | (Hv & Hs & He)])]; rewrite Hl.
  - reflexivity.
  - rewrite Hv. apply Z.ltb_ge in He. rewrite He. cbn [andb negb]. now rewrite andb_false_r.
  - rewrite Hv, Hs. cbn [andb orb negb].
    replace (elapsed_nanos (timestamp r) (ts prior) >=? window_nanos (config oe)) with false;
      [reflexivity|].
    symmetry. rewrite Z.geb_leb. apply Z.leb_gt. exact He.
Qed.

(** X7: a point that was held back goes out with the next record of the
    series whose value differs, whatever time has passed: the output of that
    call is the held-back line followed by the new one. *)
Theorem held_back_point_goes_out_on_change
  (oe : OpenTsdbRawEncoder) (now1 now2 : Z) (msg1 msg2 : Message)
  (r1 r2 : Rendered) (prior : dedupe) :
  render FormatFloat oe now1 msg1 = Returns r1 ->
  render FormatFloat oe now2 msg2 = Returns r2 ->
  bufkey FormatFloat r2 = bufkey FormatFloat r1 ->
  0 < DedupeFlush (config oe) ->
  dedupeBuffer oe !! bufkey FormatFloat r1 = Some prior ->
  iface_eq (val prior) (value r1) = true ->
  elapsed_nanos (timestamp r1) (ts prior) < window_nanos (config oe) ->
  iface_eq (value r1) (value r2) = false ->
  fst (Encode FormatFloat oe now1 msg1) = Ok None
  /\ fst (Encode FormatFloat (snd (Encode FormatFloat oe now1 msg1)) now2 msg2) =
       Ok (Some (buf r1 +:+ buf r2)).
Proof.
  intros Hr1 Hr2 Hk Hw Hl Hv He Hne.
  assert (Hfirst : Encode FormatFloat oe now1 msg1 =
            (Ok None,
             {| config := config oe; hostname := hostname oe;
                dedupeBuffer :=
                  <[bufkey FormatFloat r1 :=
                      {| data := buf r1; skipped := true; ts := ts prior; val := value r1 |}]>
                    (dedupeBuffer oe) |})).
  { rewrite (Encode_Returns _ _ _ _ _ Hr1). unfold dedupe_block.
    apply Z.ltb_lt in Hw, He. now rewrite Hw, Hl, Hv, He. }
  rewrite Hfirst. cbn [fst snd]. split; [reflexivity|].
  match goal with |- context [Encode _ ?o _ _] => set (oe1 := o) end.
  assert (Hr2' : render FormatFloat oe1 now2 msg2 = Returns r2)
    by (rewrite <- Hr2; now apply render_same_settings).
  rewrite (Encode_Returns _ _ _ _ _ Hr2'). unfold dedupe_block. subst oe1. cbn [config dedupeBuffer].
  apply Z.ltb_lt in Hw. rewrite Hw, Hk, lookup_insert_eq. cbn [val skipped data ts].
  rewrite Hne. reflexivity.
Qed.

(** X8: a record whose value is a float NaN is never held back, since Go's
    [==] holds no NaN equal to anything. *)
Theorem NaN_is_never_held_back
  (oe : OpenTsdbRawEncoder) (now : Z) (msg : Message) (r : Rendered) (bits : Z) :
  render FormatFloat oe now msg = Returns r ->
  value r = VDouble bits ->
  float64_isNaN bits = true ->
  exists out, fst (Encode FormatFloat oe now msg) = Ok (Some out).
Proof.
  intros Hr Hv Hnan. rewrite (Encode_Returns _ _ _ _ _ Hr). unfold dedupe_block.
  destruct (0 <? DedupeFlush (config oe)); [|simpl; eauto].
  destruct (dedupeBuffer oe !! bufkey FormatFloat r) as [prior|]; [|simpl; eauto].
  assert (Hne : iface_eq (val prior) (value r) = false).
  { rewrite Hv. destruct (val prior); try reflexivity.
    unfold iface_eq, float64_eq. rewrite Hnan. cbn. now rewrite andb_false_r. }
  rewrite Hne. cbn [andb]. destruct ((skipped prior || _) && _); simpl; eauto.
Qed.

(** X9: for a window of at most 9223372036 seconds and two times less than
    2^63 nanoseconds apart, the [int64] test of line 168 is the test on the
    integers: nothing wraps. *)
Theorem window_test_without_overflow
  (cfg : OpenTsdbRawEncoderConfig) (timestamp stored : Z) :
  0 < DedupeFlush cfg <= 9223372036 ->
  - 2 ^ 63 <= timestamp - stored < 2 ^ 63 ->
  (elapsed_nanos timestamp stored <? window_nanos cfg)
  = (timestamp - stored <? DedupeFlush cfg * 1000000000).
Proof.
  intros Hw Hd. rewrite window_nanos_in_range by assumption.
  unfold elapsed_nanos, sub64. now rewrite wrap64_in_range.
Qed.


End DedupeProperties.

(** ** Further facts about the line formatter *)

Section FormatterProperties.

Variable FormatFloat : Z -> string.

(** The loops only append to the buffer they are given. *)
Lemma embedded_tag_buf (tvp b : string) (s : bool) (tag : string) :
  embedded_tag tvp (b, s) tag =
    (b +:+ fst (embedded_tag tvp ("", s) tag), snd (embedded_tag tvp ("", s) tag)).
Proof.
  unfold embedded_tag. destruct (SplitN tag tvp 2) as [|k [|v [|x l]]];
    cbn [fst snd]; rewrite ?append_nil_r; try reflexivity.
  destruct (negb (String.eqb k "") && negb (String.eqb v ""));
    cbn [fst snd]; now rewrite ?append_nil_r.
Qed.

Lemma embedded_tags_buf (tvp : string) (tags : list string) (b : string) (s : bool) :
  embedded_tags tvp tags (b, s) =
    (b +:+ fst (embedded_tags tvp tags ("", s)), snd (embedded_tags tvp tags ("", s))).
Proof.
  revert b s; induction tags as [|tag tags IH]; intros b s.
  - cbn. now rewrite append_nil_r.
  - unfold embedded_tags in *. cbn [fold_left].
    rewrite (embedded_tag_buf tvp b s tag).
    destruct (embedded_tag tvp ("", s) tag) as [b1 s1]. cbn [fst snd].
    rewrite (IH (b +:+ b1) s1), (IH b1 s1). cbn [fst snd]. now rewrite append_assoc_s.
Qed.

(** The host flag, once up, stays up. *)
Lemma embedded_tags_flag_stays (tvp : string) (tags : list string) (b : string) :
  snd (embedded_tags tvp tags (b, true)) = true.
Proof.
  revert b; induction tags as [|tag tags IH]; intros b; [reflexivity|].
  unfold embedded_tags in *. cbn [fold_left].
  assert (H : snd (embedded_tag tvp (b, true) tag) = true).
  { unfold embedded_tag. destruct (SplitN tag tvp 2) as [|k [|v [|x l]]]; try reflexivity.
    destruct (negb _ && negb _); [|reflexivity]. cbn [snd]. now destruct (String.eqb _ _). }
  destruct (embedded_tag tvp (b, true) tag) as [b1 s1]. cbn [snd] in H. subst s1. apply IH.
Qed.

Lemma embedded_tags_flag_raised
  (tvp : string) (tags : list string) (st : string * bool) (seg k v : string) :
  In seg tags -> SplitN seg tvp 2 = [k; v] -> k <> "" -> v <> "" -> ToLower k = "host" ->
  snd (embedded_tags tvp tags st) = true.
Proof.
  intros Hin Hs Hk Hv Hhost. revert st; induction tags as [|tag tags IH]; intros st;
    [contradiction|].
  unfold embedded_tags in *. cbn [fold_left]. destruct Hin as [->|Hin]; [|now apply IH].
  assert (H : snd (embedded_tag tvp st seg) = true).
  { unfold embedded_tag. rewrite Hs, Hhost. apply String.eqb_neq in Hk, Hv.
    now rewrite Hk, Hv. }
  destruct (embedded_tag tvp st seg) as [b1 s1]. cbn [snd] in H. subst s1.
  apply (embedded_tags_flag_stays tvp tags b1).
Qed.

Lemma field_tag_unfold (prefix : string) (st : string * bool) (f : Field) :
  field_tag FormatFloat prefix st f =
    if promotable prefix f
    then (fst st +:+ (" " +:+ TrimLeft (GetName f) prefix +:+ "="
                      +:+ Sprint FormatFloat (GetValue f)),
          if String.eqb (TrimLeft (GetName f) prefix) "host" then true else snd st)
    else st.
Proof.
  unfold field_tag, promotable. destruct (HasPrefix (GetName f) prefix); [|reflexivity].
  now destruct (String.eqb (GetName f) "Metric" || String.eqb (GetName f) "Value").
Qed.

Lemma field_tags_promoted (prefix : string) (fields : list Field) (st : string * bool) :
  fst (field_tags FormatFloat prefix fields st) =
    fst st +:+ promoted_tags FormatFloat prefix fields.
Proof.
  revert st; induction fields as [|f rest IH]; intros st.
  - cbn. now rewrite append_nil_r.
  - unfold field_tags in *. cbn [fold_left promoted_tags]. rewrite IH, field_tag_unfold.
    destruct (promotable prefix f); [|reflexivity]. cbn [fst]. now rewrite append_assoc_s.
Qed.

Lemma field_tags_flag_stays (prefix : string) (fields : list Field) (b : string) :
  snd (field_tags FormatFloat prefix fields (b, true)) = true.
Proof.
  revert b; induction fields as [|f rest IH]; intros b; [reflexivity|].
  unfold field_tags in *. cbn [fold_left]. rewrite field_tag_unfold.
  destruct (promotable prefix f); [|apply IH]. cbn [fst snd].
  destruct (String.eqb _ _); apply IH.
Qed.

Lemma field_tags_flag_raised
  (prefix : string) (fields : list Field) (st : string * bool) (f : Field) :
  In f fields -> promotable prefix f = true -> TrimLeft (GetName f) prefix = "host" ->
  snd (field_tags FormatFloat prefix fields st) = true.
Proof.
  intros Hin Hp Hhost. revert st; induction fields as [|g rest IH]; intros st;
    [contradiction|].
  unfold field_tags in *. cbn [fold_left]. destruct Hin as [->|Hin]; [|now apply IH].
  rewrite field_tag_unfold, Hp, Hhost. cbn [String.eqb Ascii.eqb Bool.eqb].
  apply (field_tags_flag_stays prefix rest).
Qed.


Lemma Join_genSplit_loop (sep : string) (n : nat) (s : string) :
  Join (genSplit_loop sep n s) sep = s.
Proof.
  revert s; induction n as [|n IH]; intros s; [reflexivity|].
  cbn [genSplit_loop]. destruct (Cut s sep) as [[b a]|] eqn:Hc; [|reflexivity].
  cbn [Join]. specialize (IH a).
  destruct (genSplit_loop sep n a) as [|p rest] eqn:Hg;
    [now apply genSplit_loop_not_nil in Hg|].
  rewrite IH. symmetry. now apply Cut_Some_append.
Qed.

(** X11: the tag buffer, which is also the tail of the series key, holds one
    [" key=value"] for each field that carries the tag-name prefix and is
    not named [Metric] or [Value], in the order of the fields and with the
    trimmed name as key; it is empty when field promotion is off. *)
Theorem tag_buffer_is_promoted_fields
  (oe : OpenTsdbRawEncoder) (now : Z) (msg : Message) (r : Rendered) :
  render FormatFloat oe now msg = Returns r ->
  ftags r = (if FieldsToTags (config oe)
             then promoted_tags FormatFloat (TagNamePrefix (config oe)) (GetFields msg)
             else "")
  /\ bufkey FormatFloat r = Sprint_s FormatFloat (metric r) +:+ ":" +:+ ftags r.
Proof.
  unfold render. destruct (GetFieldValue msg "Metric") as [m|]; [|discriminate].
  destruct (if negb (String.eqb (TagNamePrefix (config oe)) "") then _ else _)
    as [[name tags]|]; [|discriminate].
  destruct (GetFieldValue msg "Value") as [v|]; [|discriminate].
  intros [= <-]. cbn [ftags]. split; [|reflexivity].
  destruct (FieldsToTags (config oe)); [|reflexivity].
  now rewrite field_tags_promoted.
Qed.

(** X12: the layout of a rendered line: [put], the bare metric name, the
    time in whole seconds (rounded down), the value, the embedded tags, the
    tag buffer, at most one fallback host tag, and a newline.  The fallback
    is absent when it is switched off or no host name was resolved. *)
Theorem rendered_line_layout
  (oe : OpenTsdbRawEncoder) (now : Z) (msg : Message) (r : Rendered) :
  render FormatFloat oe now msg = Returns r ->
  exists name tags host_tag,
    GetFieldValue msg "Metric" = Some (metric r)
    /\ GetFieldValue msg "Value" = Some (value r)
    /\ timestamp r = (if TsFromMessage (config oe) then GetTimestamp msg else now)
    /\ (if String.eqb (TagNamePrefix (config oe)) ""
        then name = Sprint FormatFloat (metric r) /\ tags = []
        else exists m, metric r = VString m
                       /\ Split m (TagNamePrefix (config oe)) = name :: tags)
    /\ (host_tag = "" \/ host_tag = " host=" +:+ hostname oe)
    /\ (AddHostnameIfMissing (config oe) = false \/ hostname oe = "" -> host_tag = "")
    /\ buf r = "put " +:+ name +:+ " " +:+ pretty (timestamp r / 1000000000) +:+ " "
               +:+ Sprint FormatFloat (value r)
               +:+ fst (embedded_tags (TagValuePrefix (config oe)) tags ("", false))
               +:+ ftags r +:+ host_tag +:+ newline.
Proof.
  unfold render. destruct (GetFieldValue msg "Metric") as [m|]; [|discriminate].
  destruct (if negb (String.eqb (TagNamePrefix (config oe)) "") then _ else _)
    as [[name tags]|] eqn:Hnt; [|discriminate].
  destruct (GetFieldValue msg "Value") as [v|]; [|discriminate].
  intros [= <-]. cbn [ftags buf metric value timestamp].
  rewrite embedded_tags_buf. cbn [fst snd].
  destruct (negb _ && AddHostnameIfMissing (config oe) && negb _) eqn:Hc.
  - exists name, tags, (" host=" +:+ hostname oe). repeat split.
    + destruct (String.eqb (TagNamePrefix (config oe)) ""); cbn [negb] in Hnt.
      * injection Hnt as <- <-. now split.
      * destruct m as [m| |]; try discriminate.
        destruct (Split m (TagNamePrefix (config oe))) as [|n t] eqn:Hs; [discriminate|].
        injection Hnt as <- <-. now exists m.
    + now right.
    + apply andb_true_iff in Hc as [Hc Hh]. apply andb_true_iff in Hc as [_ Ha].
      intros [Hoff | Hno]; [congruence|]. rewrite Hno in Hh. discriminate.
    + normalize_append. reflexivity.
  - exists name, tags, "". repeat split.
    + destruct (String.eqb (TagNamePrefix (config oe)) ""); cbn [negb] in Hnt.
      * injection Hnt as <- <-. now split.
      * destruct m as [m| |]; try discriminate.
        destruct (Split m (TagNamePrefix (config oe))) as [|n t] eqn:Hs; [discriminate|].
        injection Hnt as <- <-. now exists m.
    + now left.
    + normalize_append. reflexivity.
Qed.


(** X14: an embedded tag is cut at the first value prefix of its segment:
    the segment is the key, the prefix and the value put together, and the
    key holds no value prefix (the value may). *)
Theorem embedded_tag_cut_at_first_prefix (tagValuePrefix seg k v : string) :
  tagValuePrefix <> "" ->
  SplitN seg tagValuePrefix 2 = [k; v] ->
  seg = k +:+ tagValuePrefix +:+ v /\ Cut k tagValuePrefix = None.
Proof.
  intros Hne. rewrite SplitN_2 by assumption.
  destruct (Cut seg tagValuePrefix) as [[b a]|] eqn:Hc; [|discriminate].
  intros [= <- <-]. split; [now apply Cut_Some_append | now apply (Cut_Some_before seg _ b a)].
Qed.

(** X15: the bare metric name and the embedded segments are the metric cut
    at every tag-name prefix: put together again with the prefix between
    them they give the metric back. *)
Theorem Split_then_Join (s sep : string) :
  sep <> "" -> Join (Split s sep) sep = s.
Proof.
  intros Hne. unfold Split. rewrite bool_decide_eq_false_2 by assumption.
  apply Join_genSplit_loop.
Qed.

(** X16: an embedded tag whose key is [host] in any letter case keeps the
    fallback away: the rendered line is the same on a host of any name. *)
Theorem embedded_host_tag_blocks_fallback
  (oe : OpenTsdbRawEncoder) (now : Z) (msg : Message) (m seg k v h : string) :
  TagNamePrefix (config oe) <> "" ->
  GetFieldValue msg "Metric" = Some (VString m) ->
  In seg (tail (Split m (TagNamePrefix (config oe)))) ->
  SplitN seg (TagValuePrefix (config oe)) 2 = [k; v] ->
  k <> "" -> v <> "" ->
  ToLower k = "host" ->
  render FormatFloat (with_hostname oe h) now msg = render FormatFloat oe now msg.
Proof.
  intros Hp Hm Hin Hs Hk Hv Hhost. unfold render. cbn [with_hostname config hostname].
  rewrite Hm. apply String.eqb_neq in Hp. rewrite Hp. cbn [negb].
  destruct (Split m (TagNamePrefix (config oe))) as [|name tags]; [reflexivity|].
  cbn [tail] in Hin.
  destruct (GetFieldValue msg "Value") as [val0|]; [|reflexivity].
  match goal with |- context [embedded_tags ?t ?l ?s] =>
    pose proof (embedded_tags_flag_raised t l s seg k v Hin Hs Hk Hv Hhost) as Hflag;
    destruct (embedded_tags t l s) as [b1 s1] end.
  cbn [snd fst] in *. subst s1.
  destruct (FieldsToTags (config oe)); cbn [snd];
    rewrite ?field_tags_flag_stays; reflexivity.
Qed.

(** X17: so does a promoted field whose trimmed name is exactly [host]. *)
Theorem promoted_host_field_blocks_fallback
  (oe : OpenTsdbRawEncoder) (now : Z) (msg : Message) (f : Field) (h : string) :
  FieldsToTags (config oe) = true ->
  In f (GetFields msg) ->
  promotable (TagNamePrefix (config oe)) f = true ->
  TrimLeft (GetName f) (TagNamePrefix (config oe)) = "host" ->
  render FormatFloat (with_hostname oe h) now msg = render FormatFloat oe now msg.
Proof.
  intros Hf Hin Hp Hhost. unfold render. cbn [with_hostname config hostname].
  destruct (GetFieldValue msg "Metric") as [m|]; [|reflexivity].
  destruct (if negb (String.eqb (TagNamePrefix (config oe)) "") then _ else _)
    as [[name tags]|]; [|reflexivity].
  destruct (GetFieldValue msg "Value") as [val0|]; [|reflexivity].
  rewrite Hf.
  match goal with |- context [field_tags _ ?p ?l ?s] =>
    rewrite (field_tags_flag_raised p l s f Hin Hp Hhost) end.
  reflexivity.
Qed.

(** X18: [Encode] panics exactly when a tag-name prefix is set and the
    field [Metric] is present but is not text. *)
Theorem Encode_panics_iff (oe : OpenTsdbRawEncoder) (now : Z) (msg : Message) :
  fst (Encode FormatFloat oe now msg) = Panic
  <-> TagNamePrefix (config oe) <> ""
      /\ exists v, GetFieldValue msg "Metric" = Some v /\ forall s, v <> VString s.
Proof.
  unfold Encode, render.
  destruct (GetFieldValue msg "Metric") as [m|].
  2:{ cbn. split; [discriminate | intros (_ & v & Hv & _); discriminate]. }
  destruct (String.eqb (TagNamePrefix (config oe)) "") eqn:Hp; cbn [negb].
  - apply String.eqb_eq in Hp.
    destruct (GetFieldValue msg "Value") as [v|]; cbn [fst].
    + destruct (dedupe_block _ _ _). cbn. split; [discriminate | intros [H _]; congruence].
    + split; [discriminate | intros [H _]; congruence].
  - apply String.eqb_neq in Hp. destruct m as [s|n|b].
    + destruct (Split s (TagNamePrefix (config oe))) as [|name tags] eqn:Hs;
        [now apply Split_not_nil in Hs|].
      destruct (GetFieldValue msg "Value") as [v|]; cbn [fst].
      * destruct (dedupe_block _ _ _). cbn.
        split; [discriminate | intros (_ & v0 & [= <-] & Hv); now destruct (Hv s)].
      * split; [discriminate | intros (_ & v0 & [= <-] & Hv); now destruct (Hv s)].
    + cbn. split; [|reflexivity]. intros _. split; [assumption|].
      exists (VInt n). split; [reflexivity | discriminate].
    + cbn. split; [|reflexivity]. intros _. split; [assumption|].
      exists (VDouble b). split; [reflexivity | discriminate].
Qed.

End FormatterProperties.

(** ** What holds on every encoder the program can be in *)

Section RunProperties.

Variable FormatFloat : Z -> string.

Lemma Encode_all_config (oe : OpenTsdbRawEncoder) (calls : list (Z * Message)) :
  config (Encode_all FormatFloat oe calls) = config oe.
Proof.
  revert oe; induction calls as [|[now msg] rest IH]; intros oe; [reflexivity|].
  cbn [Encode_all]. now rewrite IH, Encode_config.
Qed.

(** What the dedupe block writes and lets out, when the window is on. *)
Lemma dedupe_block_cases (oe : OpenTsdbRawEncoder) (r : Rendered) :
  0 < DedupeFlush (config oe) ->
  exists d,
    dedupeBuffer (snd (dedupe_block FormatFloat oe r)) =
      <[bufkey FormatFloat r := d]> (dedupeBuffer oe)
    /\ (data d = buf r
        \/ exists prior, dedupeBuffer oe !! bufkey FormatFloat r = Some prior
                         /\ data d = data prior +:+ buf r)
    /\ (fst (dedupe_block FormatFloat oe r) = None
        \/ fst (dedupe_block FormatFloat oe r) = Some (data d)).
Proof.
  intros Hw. unfold dedupe_block. apply Z.ltb_lt in Hw. rewrite Hw.
  destruct (dedupeBuffer oe !! bufkey FormatFloat r) as [prior|] eqn:Hl.
  - destruct (iface_eq (val prior) (value r) && _).
    + eexists. cbn [fst snd dedupeBuffer]. split; [reflexivity|]. split; [now left | now left].
    + destruct ((skipped prior || _) && _); eexists; cbn [fst snd dedupeBuffer];
        (split; [reflexivity|]); (split; [|now right]).
      * right. now exists prior.
      * now left.
  - eexists. cbn [fst snd dedupeBuffer]. split; [reflexivity|]. split; [now left | now right].
Qed.

(** A rendered line opens with [put] and closes with a newline. *)
Lemma render_buf_shape (oe : OpenTsdbRawEncoder) (now : Z) (msg : Message) (r : Rendered) :
  render FormatFloat oe now msg = Returns r ->
  String.prefix "put " (buf r) = true /\ exists x, buf r = x +:+ newline.
Proof.
  unfold render. destruct (GetFieldValue msg "Metric") as [m|]; [|discriminate].
  destruct (if negb (String.eqb (TagNamePrefix (config oe)) "") then _ else _)
    as [[name tags]|]; [|discriminate].
  destruct (GetFieldValue msg "Value") as [v|]; [|discriminate].
  intros [= <-]. cbn [buf]. split; [|eauto].
  rewrite embedded_tags_buf. cbn [fst snd].
  destruct (negb _ && AddHostnameIfMissing (config oe) && negb _);
    normalize_append;
    match goal with
    | |- String.prefix _ (String _ (String _ (String _ (String _ ?x)))) = true =>
        change (String.prefix "put " ("put " +:+ x) = true)
    end;
    now apply prefix_append.
Qed.

Lemma put_lines_append (a b : string) :
  String.prefix "put " a = true -> (exists x, b = x +:+ newline) ->
  String.prefix "put " (a +:+ b) = true /\ exists x, a +:+ b = x +:+ newline.
Proof.
  intros Ha [x ->]. split; [now apply prefix_append|].
  exists (a +:+ x). now rewrite append_assoc_s.
Qed.

(** One call keeps every stored line in shape and lets out lines in shape. *)
Lemma Encode_keeps_shape (oe : OpenTsdbRawEncoder) (now : Z) (msg : Message) :
  (forall key d, dedupeBuffer oe !! key = Some d ->
                 String.prefix "put " (data d) = true /\ exists x, data d = x +:+ newline) ->
  (forall key d, dedupeBuffer (snd (Encode FormatFloat oe now msg)) !! key = Some d ->
                 String.prefix "put " (data d) = true /\ exists x, data d = x +:+ newline)
  /\ (forall out, fst (Encode FormatFloat oe now msg) = Ok (Some out) ->
                  String.prefix "put " out = true /\ exists x, out = x +:+ newline).
Proof.
  intros Hinv. unfold Encode.
  destruct (render FormatFloat oe now msg) as [r| |] eqn:Hr;
    [|split; [exact Hinv | discriminate] | split; [exact Hinv | discriminate]].
  pose proof (render_buf_shape _ _ _ _ Hr) as Hbuf.
  destruct (Z_lt_le_dec 0 (DedupeFlush (config oe))) as [Hw|Hw].
  - destruct (dedupe_block_cases oe r Hw) as (d & Hd & Hdata & Hout).
    assert (Hshape : String.prefix "put " (data d) = true /\ exists x, data d = x +:+ newline).
    { destruct Hdata as [-> | (prior & Hl & ->)]; [exact Hbuf|].
      apply put_lines_append; [apply (Hinv _ _ Hl) | apply Hbuf]. }
    destruct (dedupe_block FormatFloat oe r) as [o oe'] eqn:Hb. cbn [fst snd] in *. split.
    + intros key d0. rewrite Hd. destruct (decide (bufkey FormatFloat r = key)) as [<-|Hne].
      * rewrite lookup_insert_eq. now intros [= <-].
      * rewrite lookup_insert_ne by assumption. apply Hinv.
    + intros out [= ->]. destruct Hout as [Hout|Hout]; [discriminate|].
      injection Hout as ->. exact Hshape.
  - rewrite dedupe_block_disabled by assumption. cbn [fst snd]. split; [exact Hinv|].
    now intros out [= <-].
Qed.

Lemma Encode_all_keeps_shape (oe : OpenTsdbRawEncoder) (calls : list (Z * Message)) :
  (forall key d, dedupeBuffer oe !! key = Some d ->
                 String.prefix "put " (data d) = true /\ exists x, data d = x +:+ newline) ->
  forall key d, dedupeBuffer (Encode_all FormatFloat oe calls) !! key = Some d ->
                String.prefix "put " (data d) = true /\ exists x, data d = x +:+ newline.
Proof.
  revert oe; induction calls as [|[now msg] rest IH]; intros oe Hinv; [exact Hinv|].
  cbn [Encode_all]. apply IH. apply (Encode_keeps_shape oe now msg Hinv).
Qed.

(** X19: whatever was encoded before, every output of [Encode], flushed
    lines included, opens with [put] and closes with a newline. *)
Theorem every_output_is_put_lines
  (cfg : OpenTsdbRawEncoderConfig) (os_hostname : string) (calls : list (Z * Message))
  (now : Z) (msg : Message) (out : string) :
  fst (Encode FormatFloat (Encode_all FormatFloat (Init cfg os_hostname) calls) now msg)
  = Ok (Some out) ->
  String.prefix "put " out = true /\ exists x, out = x +:+ newline.
Proof.
  apply Encode_keeps_shape. apply Encode_all_keeps_shape.
  intros key d H. cbn [Init dedupeBuffer] in H. now rewrite lookup_empty in H.
Qed.

(** X20: [Init] gives a value prefix, the dot, to any configuration that
    has a tag-name prefix and none, and no call changes it: on every encoder
    the program can be in, a segment of an embedded tag is cut at the first
    occurrence of a separator that is not empty. *)
Theorem value_prefix_is_never_empty
  (cfg : OpenTsdbRawEncoderConfig) (os_hostname : string) (calls : list (Z * Message))
  (seg : string) :
  TagNamePrefix cfg <> "" ->
  let oe := Encode_all FormatFloat (Init cfg os_hostname) calls in
  TagNamePrefix (config oe) = TagNamePrefix cfg
  /\ TagValuePrefix (config oe)
     = (if String.eqb (TagValuePrefix cfg) "" then "." else TagValuePrefix cfg)
  /\ TagValuePrefix (config oe) <> ""
  /\ SplitN seg (TagValuePrefix (config oe)) 2
     = match Cut seg (TagValuePrefix (config oe)) with
       | None => [seg]
       | Some (k, v) => [k; v]
       end.
Proof.
  intros Hp. cbv zeta. rewrite Encode_all_config. unfold Init. cbn [config].
  apply String.eqb_neq in Hp. rewrite Hp. cbn [negb andb].
  destruct (String.eqb (TagValuePrefix cfg) "") eqn:Hv; cbn [TagNamePrefix TagValuePrefix].
  - repeat split; [discriminate | now apply SplitN_2].
  - apply String.eqb_neq in Hv. repeat split; [assumption | now apply SplitN_2].
Qed.

(** X21: an encoder built from the defaults of [ConfigStruct] keeps no
    state and reads no clock: a call never panics, never holds a record
    back, leaves the encoder as it was and gives the same result at any
    time of the day. *)
Theorem default_encoder_is_stateless
  (os_hostname : string) (now now' : Z) (msg : Message) :
  let oe := Init ConfigStruct os_hostname in
  fst (Encode FormatFloat oe now msg) <> Panic
  /\ fst (Encode FormatFloat oe now msg) <> Ok None
  /\ snd (Encode FormatFloat oe now msg) = oe
  /\ Encode FormatFloat oe now' msg = Encode FormatFloat oe now msg.
Proof.
  cbv zeta. unfold Encode, render, Init, ConfigStruct.
  cbn [config TagNamePrefix TagValuePrefix TsFromMessage FieldsToTags AddHostnameIfMissing
       DedupeFlush String.eqb negb andb hostname].
  destruct (GetFieldValue msg "Metric") as [m|]; [|repeat split; discriminate].
  destruct (GetFieldValue msg "Value") as [v|]; [|repeat split; discriminate].
  unfold dedupe_block. cbn [config DedupeFlush Z.ltb Z.compare fst snd].
  repeat split; discriminate.
Qed.

End RunProperties.

(** ** The further properties at sample inputs *)

Lemma Encode_window_off_witness :
  Encode no_floats (embedded "" "h1") 0 (metric_point "cpu" []) =
    (Ok (Some ("put cpu 5 1 host=h1" +:+ newline)), embedded "" "h1").
Proof.
  apply (Encode_window_off no_floats (embedded "" "h1") 0 (metric_point "cpu" [])
           {| buf := "put cpu 5 1 host=h1" +:+ newline; ftags := ""; metric := VString "cpu";
              value := VInt 1; timestamp := 5000000000 |});
    [vm_compute; reflexivity | vm_compute; discriminate].
Defined.

Lemma Encode_all_keeps_settings_witness :
  dedupeBuffer (Encode_all no_floats (Init (configure "" 0) "h1")
                  [(0, metric_point "cpu" []); (0, cpu_point 1 7)]) = ∅.
Proof.
  apply (proj2 (proj2 (Encode_all_keeps_settings no_floats (configure "" 0) "h1"
                         [(0, metric_point "cpu" []); (0, cpu_point 1 7)]))).
  vm_compute. discriminate.
Defined.

Lemma Encode_leaves_other_series_witness :
  dedupeBuffer (snd (Encode no_floats (run window60 [cpu_point 1 0]) 0
                       (metric_point "mem" []))) !! "cpu:" =
    dedupeBuffer (run window60 [cpu_point 1 0]) !! "cpu:".
Proof.
  apply (Encode_leaves_other_series no_floats (run window60 [cpu_point 1 0]) 0
           (metric_point "mem" []) "cpu:").
  intros r H. vm_compute in H. injection H as <-. vm_compute. discriminate.
Defined.

Lemma Encode_records_the_series_witness :
  dom (dedupeBuffer (snd (Encode no_floats (run window60 [cpu_point 1 0]) 0
                            (metric_point "mem" [])))) =
    {["mem:"]} ∪ dom (dedupeBuffer (run window60 [cpu_point 1 0])).
Proof.
  apply (Encode_records_the_series no_floats (run window60 [cpu_point 1 0]) 0
           (metric_point "mem" [])
           {| buf := "put mem 5 1" +:+ newline; ftags := ""; metric := VString "mem";
              value := VInt 1; timestamp := 5000000000 |});
    [vm_compute; reflexivity | vm_compute; reflexivity].
Defined.

Lemma Encode_stores_what_it_emits_witness :
  dedupeBuffer (snd (Encode no_floats (run window60 [cpu_point 1 0; cpu_point 1 10]) 0
                       (cpu_point 2 20))) !! "cpu:" =
    Some {| data := ("put cpu 10 1" +:+ newline) +:+ ("put cpu 20 2" +:+ newline);
            skipped := false; ts := 20000000000; val := VInt 2 |}.
Proof.
  apply (Encode_stores_what_it_emits no_floats
           (run window60 [cpu_point 1 0; cpu_point 1 10]) 0 (cpu_point 2 20)
           {| buf := "put cpu 20 2" +:+ newline; ftags := ""; metric := VString "cpu";
              value := VInt 2; timestamp := 20000000000 |});
    vm_compute; reflexivity.
Defined.

Lemma Encode_emits_rendered_line_alone_witness :
  Encode no_floats (run window60 [cpu_point 1 0]) 0 (cpu_point 2 10) =
    (Ok (Some ("put cpu 10 2" +:+ newline)),
     {| config := config window60; hostname := "";
        dedupeBuffer :=
          <["cpu:" := {| data := "put cpu 10 2" +:+ newline; skipped := false;
                         ts := 10000000000; val := VInt 2 |}]>
            (dedupeBuffer (run window60 [cpu_point 1 0])) |}).
Proof.
  apply (Encode_emits_rendered_line_alone no_floats (run window60 [cpu_point 1 0]) 0
           (cpu_point 2 10)
           {| buf := "put cpu 10 2" +:+ newline; ftags := ""; metric := VString "cpu";
              value := VInt 2; timestamp := 10000000000 |}).
  - vm_compute; reflexivity.
  - vm_compute; reflexivity.
  - right. exists {| data := "put cpu 0 1" +:+ newline; skipped := false; ts := 0;
                     val := VInt 1 |}.
    split; [vm_compute; reflexivity|]. right. repeat split; vm_compute; reflexivity.
Defined.

Lemma held_back_point_goes_out_on_change_witness :
  fst (Encode no_floats (run window60 [cpu_point 1 0]) 0 (cpu_point 1 10)) = Ok None
  /\ fst (Encode no_floats
            (snd (Encode no_floats (run window60 [cpu_point 1 0]) 0 (cpu_point 1 10)))
            0 (cpu_point 2 1000)) =
       Ok (Some (("put cpu 10 1" +:+ newline) +:+ ("put cpu 1000 2" +:+ newline))).
Proof.
  apply (held_back_point_goes_out_on_change no_floats (run window60 [cpu_point 1 0]) 0 0
           (cpu_point 1 10) (cpu_point 2 1000)
           {| buf := "put cpu 10 1" +:+ newline; ftags := ""; metric := VString "cpu";
              value := VInt 1; timestamp := 10000000000 |}
           {| buf := "put cpu 1000 2" +:+ newline; ftags := ""; metric := VString "cpu";
              value := VInt 2; timestamp := 1000000000000 |}
           {| data := "put cpu 0 1" +:+ newline; skipped := false; ts := 0; val := VInt 1 |});
    vm_compute; reflexivity.
Defined.

Lemma NaN_is_never_held_back_witness :
  exists out,
    fst (Encode no_floats
           (snd (Encode no_floats window60 0
                   (mkMessage [mkField "Metric" (VString "cpu");
                               mkField "Value" (VDouble quiet_NaN)] 0)))
           0 (mkMessage [mkField "Metric" (VString "cpu");
                         mkField "Value" (VDouble quiet_NaN)] 1000000000)) = Ok (Some out).
Proof.
  apply (NaN_is_never_held_back no_floats _ 0 _
           {| buf := "put cpu 1 " +:+ newline; ftags := ""; metric := VString "cpu";
              value := VDouble quiet_NaN; timestamp := 1000000000 |} quiet_NaN);
    vm_compute; reflexivity.
Defined.

Lemma window_test_without_overflow_witness :
  (elapsed_nanos 10000000000 0 <? window_nanos (configure "" 60))
  = (10000000000 - 0 <? DedupeFlush (configure "" 60) * 1000000000).
Proof.
  apply (window_test_without_overflow (configure "" 60) 10000000000 0);
    split; vm_compute; first [reflexivity | discriminate].
Defined.


Lemma tag_buffer_is_promoted_fields_witness :
  ftags {| buf := "put cpu 5 1 dc=ams host=h1" +:+ newline; ftags := " dc=ams";
           metric := VString "cpu"; value := VInt 1; timestamp := 5000000000 |} =
    (if FieldsToTags (config (embedded "t_" "h1"))
     then promoted_tags no_floats (TagNamePrefix (config (embedded "t_" "h1")))
            (GetFields (metric_point "cpu" [mkField "t_dc" (VString "ams");
                                            mkField "rack" (VInt 7)]))
     else "").
Proof.
  apply (tag_buffer_is_promoted_fields no_floats (embedded "t_" "h1") 0
           (metric_point "cpu" [mkField "t_dc" (VString "ams"); mkField "rack" (VInt 7)])
           {| buf := "put cpu 5 1 dc=ams host=h1" +:+ newline; ftags := " dc=ams";
              metric := VString "cpu"; value := VInt 1; timestamp := 5000000000 |}).
  vm_compute; reflexivity.
Defined.

Lemma rendered_line_layout_witness :
  exists name tags host_tag,
    GetFieldValue (metric_point "cpu#dc.ams" []) "Metric" = Some (VString "cpu#dc.ams")
    /\ GetFieldValue (metric_point "cpu#dc.ams" []) "Value" = Some (VInt 1)
    /\ 5000000000 = (if TsFromMessage (config (embedded "#" "h1"))
                     then GetTimestamp (metric_point "cpu#dc.ams" []) else 0)
    /\ (if String.eqb (TagNamePrefix (config (embedded "#" "h1"))) ""
        then name = Sprint no_floats (VString "cpu#dc.ams") /\ tags = []
        else exists m, VString "cpu#dc.ams" = VString m
                       /\ Split m (TagNamePrefix (config (embedded "#" "h1"))) = name :: tags)
    /\ (host_tag = "" \/ host_tag = " host=" +:+ hostname (embedded "#" "h1"))
    /\ (AddHostnameIfMissing (config (embedded "#" "h1")) = false
        \/ hostname (embedded "#" "h1") = "" -> host_tag = "")
    /\ "put cpu 5 1dc=ams host=h1" +:+ newline
       = "put " +:+ name +:+ " " +:+ pretty (5000000000 / 1000000000) +:+ " "
         +:+ Sprint no_floats (VInt 1)
         +:+ fst (embedded_tags (TagValuePrefix (config (embedded "#" "h1"))) tags ("", false))
         +:+ "" +:+ host_tag +:+ newline.
Proof.
  apply (rendered_line_layout no_floats (embedded "#" "h1") 0 (metric_point "cpu#dc.ams" [])
           {| buf := "put cpu 5 1dc=ams host=h1" +:+ newline; ftags := "";
              metric := VString "cpu#dc.ams"; value := VInt 1; timestamp := 5000000000 |}).
  vm_compute; reflexivity.
Defined.


Lemma embedded_tag_cut_at_first_prefix_witness :
  "host.web.1" = "host" +:+ "." +:+ "web.1" /\ Cut "host" "." = None.
Proof.
  apply (embedded_tag_cut_at_first_prefix "." "host.web.1" "host" "web.1");
    [discriminate | vm_compute; reflexivity].
Defined.

Lemma Split_then_Join_witness : Join (Split "cpu#dc.ams##rack.7" "#") "#" = "cpu#dc.ams##rack.7".
Proof. apply (Split_then_Join "cpu#dc.ams##rack.7" "#"). discriminate. Defined.

Lemma embedded_host_tag_blocks_fallback_witness :
  render no_floats (with_hostname (embedded "#" "h1") "h2") 0 (metric_point "cpu#HoSt.web1" [])
  = render no_floats (embedded "#" "h1") 0 (metric_point "cpu#HoSt.web1" []).
Proof.
  apply (embedded_host_tag_blocks_fallback no_floats (embedded "#" "h1") 0
           (metric_point "cpu#HoSt.web1" []) "cpu#HoSt.web1" "HoSt.web1" "HoSt" "web1" "h2").
  - vm_compute; discriminate.
  - vm_compute; reflexivity.
  - vm_compute; left; reflexivity.
  - vm_compute; reflexivity.
  - discriminate.
  - discriminate.
  - vm_compute; reflexivity.
Defined.

Lemma promoted_host_field_blocks_fallback_witness :
  render no_floats (with_hostname (embedded "t_" "h1") "h2") 0
    (metric_point "cpu" [mkField "t_host" (VString "web1")])
  = render no_floats (embedded "t_" "h1") 0
      (metric_point "cpu" [mkField "t_host" (VString "web1")]).
Proof.
  apply (promoted_host_field_blocks_fallback no_floats (embedded "t_" "h1") 0
           (metric_point "cpu" [mkField "t_host" (VString "web1")])
           (mkField "t_host" (VString "web1")) "h2").
  - vm_compute; reflexivity.
  - vm_compute; right; right; left; reflexivity.
  - vm_compute; reflexivity.
  - vm_compute; reflexivity.
Defined.

Lemma every_output_is_put_lines_witness :
  String.prefix "put " (("put cpu 10 1" +:+ newline) +:+ ("put cpu 20 2" +:+ newline)) = true
  /\ exists x, ("put cpu 10 1" +:+ newline) +:+ ("put cpu 20 2" +:+ newline) = x +:+ newline.
Proof.
  apply (every_output_is_put_lines no_floats (configure "" 60) ""
           [(0, cpu_point 1 0); (0, cpu_point 1 10)] 0 (cpu_point 2 20)).
  vm_compute; reflexivity.
Defined.

Lemma value_prefix_is_never_empty_witness :
  TagValuePrefix (config (Encode_all no_floats (Init (configure "#" 60) "h1")
                            [(0, metric_point "cpu#dc.ams" [])])) = "."
  /\ SplitN "dc.ams" "." 2 = ["dc"; "ams"].
Proof.
  pose proof (value_prefix_is_never_empty no_floats (configure "#" 60) "h1"
                [(0, metric_point "cpu#dc.ams" [])] "dc.ams") as H.
  destruct H as (_ & Hv & _ & _); [vm_compute; discriminate|].
  split; [exact Hv | vm_compute; reflexivity].
Defined.
